(** * httpd (mod.js): request dispatch of a small static/dynamic web server

    A shallow embedding of [src/mod.js].  The module exports one function,
    [httpd(handler, opts)], which resolves a port, builds a template of
    default response headers and hands a per-request callback to
    [Deno.serve]; two helpers, [error(msg)] and [log(req, status)], render
    the error page and write the access-log line.

    JavaScript strings are modelled as [string] (ASCII text), numbers that
    the program handles (ports, status codes) as [Z], optional keys of the
    [opts] object as [option], the mutable [Headers] object by explicit
    state passing, [try]/[catch] and the console by a small monad. *)

From Stdlib Require Import String Ascii List ZArith Bool Lia DecimalString.
From Stdlib Require Import Permutation Sorted.
From Stdlib Require OrderedTypeEx.
Import ListNotations.
Open Scope string_scope.

(* ================================================================== *)
(** ** The fragment of the JavaScript string library used by mod.js   *)
(* ================================================================== *)

Module JS.

(** [s.slice(n)] for a non-negative [n]. *)
Fixpoint slice_from (n : nat) (s : string) : string :=
  match n, s with
  | O, _ => s
  | S _, EmptyString => EmptyString
  | S n', String _ s' => slice_from n' s'
  end.

(** [s.slice(a, b)] for non-negative [a <= b]. *)
Definition slice (a b : nat) (s : string) : string := substring a (b - a) s.

(** [s.startsWith(p)]; also the test [s.match(/^p/)] for a literal [p]. *)
Definition startsWith (s p : string) : bool := String.prefix p s.

(** [s.endsWith(suf)]. *)
Fixpoint endsWith (s suf : string) : bool :=
  (s =? suf) ||
  match s with
  | EmptyString => false
  | String _ s' => endsWith s' suf
  end.

(** Truthiness of a string: only the empty string is falsy. *)
Definition truthy_string (s : string) : bool := negb (s =? "").

(** [a || b] on strings. *)
Definition or_string (a b : string) : string := if truthy_string a then a else b.

(** [s.split(':')]: always at least one piece. *)
Fixpoint split_colon (s : string) : list string :=
  match s with
  | EmptyString => [EmptyString]
  | String c s' =>
      if Ascii.eqb c ":" then EmptyString :: split_colon s'
      else match split_colon s' with
           | p :: ps => String c p :: ps
           | [] => [String c EmptyString]
           end
  end.

(** [parts.join(':')]. *)
Fixpoint join_colon (parts : list string) : string :=
  match parts with
  | [] => EmptyString
  | [p] => p
  | p :: ps => p ++ ":" ++ join_colon ps
  end.

(** [[0-9]] *)
Definition is_digit (c : ascii) : bool :=
  let n := nat_of_ascii c in (48 <=? n)%nat && (n <=? 57)%nat.

Fixpoint all_digits (s : string) : bool :=
  match s with
  | EmptyString => true
  | String c s' => is_digit c && all_digits s'
  end.

Fixpoint decimal_value (acc : Z) (s : string) : option Z :=
  match s with
  | EmptyString => Some acc
  | String c s' =>
      if is_digit c
      then decimal_value (10 * acc + (Z.of_nat (nat_of_ascii c) - 48)) s'
      else None
  end.

(** The argument of [Number(...)] in mod.js is either the [port] option
    (a number) or a slice of a command-line argument (a string). *)
Inductive num_arg : Type :=
| ANum (n : Z)
| AStr (s : string).

(** [Number(x)].  A number is returned as it is; a string of decimal
    digits denotes its value.  [None] stands for every other string
    (signs, blanks, exponents, hexadecimal, NaN), which is outside this
    model. *)
Definition Number (x : num_arg) : option Z :=
  match x with
  | ANum n => Some n
  | AStr s => match s with
              | EmptyString => None
              | _ => decimal_value 0 s
              end
  end.

(** [`${n}`] for an integer [n]. *)
Definition string_of_Z (n : Z) : string := NilZero.string_of_int (Z.to_int n).

(** [arr.pop()] read as an expression: the last element, if any. *)
Fixpoint pop (l : list string) : option string :=
  match l with
  | [] => None
  | [x] => Some x
  | _ :: l' => pop l'
  end.

End JS.

(* ================================================================== *)
(** ** Options and port resolution                                     *)
(* ================================================================== *)

(** The [opts] argument: every key may be absent. *)
Record Opts : Type := mkOpts {
  opt_port    : option Z;
  opt_cors    : option bool;
  opt_ls      : option bool;
  opt_headers : option (list string)
}.

(** [opts = {}] *)
Definition no_opts : Opts := mkOpts None None None None.

(** [opts.x] used as a condition: an absent key reads [undefined]. *)
Definition truthy_key (k : option bool) : bool :=
  match k with
  | Some b => b
  | None => false
  end.

(** ['x' in opts ? opts.x : true] *)
Definition key_or_true (k : option bool) : bool :=
  match k with
  | Some b => b
  | None => true
  end.

(** [e.match(/^-p([0-9]{3,5})$/)]: the match array (whole match, group 1),
    or [None] for [null]. *)
Definition match_port_flag (e : string) : option (list string) :=
  match e with
  | String c1 (String c2 ds) =>
      if (c1 =? "-")%char && (c2 =? "p")%char &&
         JS.all_digits ds && (3 <=? String.length ds)%nat && (String.length ds <=? 5)%nat
      then Some [e; ds]
      else None
  | _ => None
  end.

(** [(e) => e.match(/^-p([0-9]{3,5})$/)?.pop()] as a condition. *)
Definition port_flag_test (e : string) : bool :=
  match match_port_flag e with
  | Some arr => match JS.pop arr with
                | Some g => JS.truthy_string g
                | None => false
                end
  | None => false
  end.

(** [Number(opts.port ?? ((Deno.args.find(...)) || '-p5000').slice(2))] *)
Definition resolve_port (opts : Opts) (args : list string) : option Z :=
  JS.Number
    match opt_port opts with
    | Some p => JS.ANum p
    | None =>
        JS.AStr (JS.slice_from 2
                   match find port_flag_test args with
                   | Some e => JS.or_string e "-p5000"
                   | None => "-p5000"
                   end)
    end.

(** The wording of the specification: "dash, lowercase p, 3-5 digits". *)
Definition is_port_flag (e : string) : Prop :=
  exists ds, e = "-p" ++ ds /\ JS.all_digits ds = true /\
             (3 <= String.length ds <= 5)%nat.

(* ================================================================== *)
(** ** The platform's [Headers] object                                 *)
(* ================================================================== *)

(** [Headers] is a platform class, not code of mod.js.  Its model follows
    the Fetch standard: a list of (name, value) pairs in insertion order,
    names stored in lower case, values stripped of leading and trailing
    HTTP whitespace; a name that is not a token or a value holding NUL, CR
    or LF makes the method throw a [TypeError] ([None] below). *)
Module Headers.

Definition t : Type := list (string * string).

Definition lower_ascii (c : ascii) : ascii :=
  let n := nat_of_ascii c in
  if (65 <=? n)%nat && (n <=? 90)%nat then ascii_of_nat (n + 32) else c.

Fixpoint lower (s : string) : string :=
  match s with
  | EmptyString => EmptyString
  | String c s' => String (lower_ascii c) (lower s')
  end.

Definition is_tchar (c : ascii) : bool :=
  let n := nat_of_ascii c in
  ((48 <=? n)%nat && (n <=? 57)%nat) ||
  ((65 <=? n)%nat && (n <=? 90)%nat) ||
  ((97 <=? n)%nat && (n <=? 122)%nat) ||
  existsb (Nat.eqb n) [33; 35; 36; 37; 38; 39; 42; 43; 45; 46; 94; 95; 96; 124; 126]%nat.

Fixpoint all_tchar (s : string) : bool :=
  match s with
  | EmptyString => true
  | String c s' => is_tchar c && all_tchar s'
  end.

Definition valid_name (n : string) : bool := negb (n =? "") && all_tchar n.

Definition is_http_ws (c : ascii) : bool :=
  existsb (Nat.eqb (nat_of_ascii c)) [9; 10; 13; 32]%nat.

Fixpoint strip_leading (s : string) : string :=
  match s with
  | EmptyString => EmptyString
  | String c s' => if is_http_ws c then strip_leading s' else s
  end.

Fixpoint strip_trailing (s : string) : string :=
  match s with
  | EmptyString => EmptyString
  | String c s' =>
      let r := strip_trailing s' in
      if is_http_ws c && (r =? "") then EmptyString else String c r
  end.

Definition normalize_value (v : string) : string :=
  strip_trailing (strip_leading v).

Fixpoint valid_value (v : string) : bool :=
  match v with
  | EmptyString => true
  | String c v' =>
      negb (existsb (Nat.eqb (nat_of_ascii c)) [0; 10; 13]%nat) && valid_value v'
  end.

(** [new Headers()] *)
Definition empty : t := [].

(** The values stored under the stored name [k], in order. *)
Definition raw_values (h : t) (k : string) : list string :=
  map snd (filter (fun kv => fst kv =? k) h).

(** The values of one name joined by a comma and a blank. *)
Fixpoint join_comma (vs : list string) : string :=
  match vs with
  | [] => EmptyString
  | [v] => v
  | v :: vs' => v ++ ", " ++ join_comma vs'
  end.

Fixpoint insert_name (a : string) (l : list string) : list string :=
  match l with
  | [] => [a]
  | x :: l' => if (a <=? x)%string then a :: l else x :: insert_name a l'
  end.

(** Sorting by byte order. *)
Definition sort_names (l : list string) : list string :=
  fold_right insert_name [] l.

(** The names of a header list as a sorted set. *)
Definition sorted_names (h : t) : list string :=
  sort_names (nodup string_dec (map fst h)).

(** What iterating a [Headers] object yields for one name: one entry with
    the values joined, except for set-cookie, whose values stay apart. *)
Definition entries_for (h : t) (k : string) : t :=
  if k =? "set-cookie"
  then map (fun v => (k, v)) (raw_values h k)
  else [(k, join_comma (raw_values h k))].

(** "Sort and combine": what iterating a [Headers] object yields. *)
Definition sort_and_combine (h : t) : t :=
  flat_map (entries_for h) (sorted_names h).

(** [new Headers(init)] for an [init] that is itself a [Headers], which is
    also how [new Response(body, { headers })] takes its headers: the new
    object is filled by appending what iterating [init] yields, so its
    entries are sorted by name and the values of one name are joined.
    The names and values of a [Headers] object have passed the checks of
    [append] when they were stored, and its names are in lower case; the
    appended value is trimmed once more. *)
Definition copy (init : t) : t :=
  map (fun kv => (fst kv, normalize_value (snd kv))) (sort_and_combine init).

(** [h.append(name, value)] *)
Definition append (h : t) (name value : string) : option t :=
  let v := normalize_value value in
  if valid_name name && valid_value v
  then Some (h ++ [(lower name, v)])%list
  else None.

Fixpoint remove_name (n : string) (h : t) : t :=
  match h with
  | [] => []
  | (k, v) :: h' => if k =? n then remove_name n h' else (k, v) :: remove_name n h'
  end.

(** Replace the value of the first entry named [n], drop the later ones;
    append when there is none. *)
Fixpoint set_entry (n v : string) (h : t) : t :=
  match h with
  | [] => [(n, v)]
  | (k, w) :: h' =>
      if k =? n then (n, v) :: remove_name n h' else (k, w) :: set_entry n v h'
  end.

(** [h.set(name, value)] *)
Definition set (h : t) (name value : string) : option t :=
  let v := normalize_value value in
  if valid_name name && valid_value v
  then Some (set_entry (lower name) v h)
  else None.

(** The values stored under [name], in order. *)
Definition values (h : t) (name : string) : list string :=
  map snd (filter (fun kv => fst kv =? lower name) h).

(** The entries stored under any other name, in order. *)
Definition others (h : t) (name : string) : t :=
  filter (fun kv => negb (fst kv =? lower name)) h.

(** [h.has(name)] *)
Definition has (h : t) (name : string) : bool :=
  existsb (fun kv => fst kv =? lower name) h.

End Headers.

(* ================================================================== *)
(** ** Requests, responses, values and promises                        *)
(* ================================================================== *)

(** [new URL(req.url)]: the fields that mod.js reads. *)
Record URL : Type := mkURL {
  pathname : string;
  search   : string;
  hash     : string;
  username : string;
  password : string
}.

Record Request : Type := mkRequest {
  method : string;
  url    : URL
}.

Record Response : Type := mkResponse {
  status  : Z;
  headers : Headers.t;
  body    : string
}.

(** A thrown value or rejection reason: the failure detail. *)
Definition Err : Type := string.

(** What a handler can hand back.  A promise is represented by the way it
    settles. *)
Inductive Value : Type :=
| VUndefined
| VNull
| VBool (b : bool)
| VNum (n : Z)
| VStr (s : string)
| VResponse (r : Response)
| VPromise (p : Settlement)
with Settlement : Type :=
| Fulfils (v : Value)
| Rejects (e : Err).

(** [if (v)] *)
Definition truthy (v : Value) : bool :=
  match v with
  | VUndefined | VNull => false
  | VBool b => b
  | VNum n => negb (n =? 0)%Z
  | VStr s => JS.truthy_string s
  | VResponse _ | VPromise _ => true
  end.

(** The promise returned by an [async] function. *)
Inductive Promise (A : Type) : Type :=
| Fulfilled (a : A)
| Rejected (e : Err).
Arguments Fulfilled {A} a.
Arguments Rejected {A} e.

(** [return v] in an [async] function: a returned promise is adopted, so
    the function's promise settles the way [v] does. *)
Fixpoint resolve (v : Value) : Promise Value :=
  match v with
  | VPromise (Fulfils v') => resolve v'
  | VPromise (Rejects e) => Rejected e
  | _ => Fulfilled v
  end.

(* ================================================================== *)
(** ** Console output, exceptions: the [Js] monad                      *)
(* ================================================================== *)

(** One line written to the console, tagged with the method used. *)
Inductive Output : Type :=
| Log (s : string)      (* console.log   *)
| Debug (s : string)    (* console.debug *)
| Warn (e : Err).       (* console.warn({ err }) *)

Definition Console : Type := list Output.

Inductive Completion (A : Type) : Type :=
| Normal (a : A)
| Throw (e : Err).
Arguments Normal {A} a.
Arguments Throw {A} e.

Definition Js (A : Type) : Type := Console -> Completion A * Console.

Definition ret {A} (a : A) : Js A := fun c => (Normal a, c).

Definition bind {A B} (m : Js A) (k : A -> Js B) : Js B :=
  fun c => match m c with
           | (Normal a, c') => k a c'
           | (Throw e, c') => (Throw e, c')
           end.

Definition throw {A} (e : Err) : Js A := fun c => (Throw e, c).

(** [try { m } catch (err) { h err }] *)
Definition try_catch {A} (m : Js A) (h : Err -> Js A) : Js A :=
  fun c => match m c with
           | (Normal a, c') => (Normal a, c')
           | (Throw e, c') => h e c'
           end.

Definition lift {A} (x : Completion A) : Js A := fun c => (x, c).

Definition write (o : Output) : Js unit := fun c => (Normal tt, (c ++ [o])%list).

(** A method of [Headers] that may throw a [TypeError]. *)
Definition or_type_error {A} (x : option A) : Js A :=
  match x with
  | Some a => ret a
  | None => throw "TypeError"
  end.

(** [await p] *)
Definition await {A} (p : Promise A) : Js A :=
  match p with
  | Fulfilled a => ret a
  | Rejected e => throw e
  end.

Declare Scope js_scope.
Delimit Scope js_scope with js.
Notation "x <- m ;; k" := (bind m (fun x => k))
  (at level 61, m at next level, right associativity) : js_scope.
Notation "m ;; k" := (bind m (fun _ => k))
  (at level 61, right associativity) : js_scope.
Open Scope js_scope.

(* ================================================================== *)
(** ** The error page and the access log                               *)
(* ================================================================== *)

(** The double-quote character. *)
Definition dq : string := String "034" EmptyString.

(** The template literal of [error(msg)] up to [${msg}]. *)
Definition error_page_head : string :=
"
<center>
<br><br><br>

<svg version=" ++ dq ++
"1.0" ++ dq ++
" xmlns=" ++ dq ++
"http://www.w3.org/2000/svg" ++ dq ++
"
 width=" ++ dq ++
"300.000000pt" ++ dq ++
" height=" ++ dq ++
"269.000000pt" ++ dq ++
" viewBox=" ++ dq ++
"0 0 300.000000 269.000000" ++ dq ++
"
 preserveAspectRatio=" ++ dq ++
"xMidYMid meet" ++ dq ++
">
<g transform=" ++ dq ++
"translate(0.000000,269.000000) scale(0.100000,-0.100000)" ++ dq ++
"
fill=" ++ dq ++
"#000000" ++ dq ++
" stroke=" ++ dq ++
"none" ++ dq ++
">
<path d=" ++ dq ++
"M1180 2603 c-14 -2 -72 -15 -130 -30 -354 -87 -574 -198 -760 -383
-185 -185 -239 -313 -240 -575 0 -118 12 -189 61 -365 46 -163 108 -299 199
-437 33 -51 60 -101 60 -112 0 -15 6 -21 23 -21 28 0 47 -17 47 -42 0 -10 6
-18 12 -18 7 0 67 -55 133 -122 146 -150 194 -179 368 -229 73 -20 195 -60
272 -87 207 -75 353 -102 543 -102 115 0 160 4 182 15 15 8 30 18 32 23 1 5
44 30 93 56 86 46 180 108 187 124 2 4 48 40 103 79 127 91 234 196 323 315
160 213 242 471 242 756 0 119 -3 147 -25 217 -44 138 -113 234 -274 379 -105
96 -299 246 -317 246 -3 0 -38 19 -77 42 -88 52 -197 101 -297 133 -41 13
-122 40 -178 60 -163 57 -320 85 -467 83 -49 0 -101 -3 -115 -5z m332 -118 c3
-14 6 -123 7 -242 0 -120 4 -264 7 -320 4 -66 3 -103 -3 -103 -16 0 -22 91
-30 403 -4 197 -3 287 4 287 6 0 13 -11 15 -25z m-433 -199 c1 -71 -1 -127 -4
-125 -2 3 -7 72 -9 155 -3 88 -2 139 3 124 5 -14 9 -83 10 -154z m79 33 l-3
-124 -5 132 c-3 73 -1 129 3 124 4 -4 6 -64 5 -132z m-371 59 c1 -20 29 -317
52 -545 3 -40 4 -73 1 -73 -13 0 -62 372 -74 560 -2 25 -7 53 -11 63 -5 13 -2
17 11 17 13 0 20 -8 21 -22z m450 -225 c-2 -38 -3 -7 -3 67 0 74 1 105 3 68 2
-38 2 -98 0 -135z m-603 5 c3 -48 13 -140 21 -205 8 -65 15 -134 14 -153 -1
-72 -17 13 -44 235 -14 121 -28 234 -31 252 -3 20 0 33 8 35 15 5 22 -32 32
-164z m1228 -523 c3 -110 1 -187 -3 -171 -4 15 -10 207 -13 425 -4 318 -3 352
4 171 4 -124 10 -315 12 -425z m-1321 479 c20 -159 38 -316 44 -389 4 -36 2
-44 -4 -30 -6 11 -24 124 -41 250 -17 127 -35 247 -40 267 -4 20 -5 40 -2 43
18 17 28 -16 43 -141z m1718 -146 c1 -144 0 -260 -2 -258 -14 15 -16 520 -2
520 1 0 3 -118 4 -262z m-1809 106 c16 -104 37 -264 59 -472 10 -88 -5 -88
-19 0 -6 40 -20 127 -30 193 -11 66 -27 169 -36 230 -8 60 -20 116 -26 123 -8
9 -6 18 7 32 10 11 20 19 22 17 2 -2 12 -58 23 -123z m1912 54 c-10 -22 -11
-21 -11 12 -1 26 2 31 11 22 8 -8 8 -17 0 -34z m-2018 -35 c8 -27 86 -578 86
-611 0 -15 4 -32 9 -38 6 -5 5 -18 -3 -32 -10 -19 -14 -4 -29 115 -10 76 -24
176 -32 223 -8 47 -21 137 -31 200 -9 63 -20 122 -25 131 -8 16 -3 29 12 29 4
0 10 -8 13 -17z m-65 -108 l0 -30 -14 34 c-8 18 -12 38 -9 43 10 16 24 -13 23
-47z m2075 -97 c-3 -46 -7 -272 -8 -503 -4 -474 -7 -541 -16 -405 -7 94 6 865
16 948 9 71 14 47 8 -40z m-2061 12 c4 -30 3 -38 -3 -25 -8 19 -14 83 -6 74 2
-2 6 -24 9 -49z m2151 -412 c-7 -517 -20 -764 -23 -443 -1 105 -2 228 -2 275
1 105 24 620 28 620 1 0 0 -204 -3 -452z m201 122 c-11 -356 -25 -705 -31
-738 -3 -20 -10 -32 -17 -29 -13 4 -12 142 3 502 5 116 10 266 11 335 1 69 4
140 7 159 l5 33 14 -33 c12 -27 13 -72 8 -229z m-2477 132 c10 -66 28 -190 72
-512 5 -36 9 -74 9 -85 -2 -27 -17 43 -29 130 -5 39 -12 80 -15 92 -3 13 -14
87 -25 166 -10 79 -24 164 -29 188 -12 52 -14 116 -3 105 4 -4 13 -42 20 -84z
m70 -2 l0 -35 -8 30 c-4 17 -8 44 -8 60 0 29 0 29 8 5 4 -14 8 -41 8 -60z
m1289 23 c-4 -17 -4 -17 -12 0 -4 9 -4 25 0 35 8 16 8 16 12 0 3 -10 3 -26 0
-35z m-194 -22 c13 -5 27 -19 30 -31 5 -19 11 -22 44 -18 46 6 144 -34 185
-76 80 -81 180 -242 222 -356 36 -96 44 -141 56 -295 6 -77 18 -205 26 -285 8
-80 17 -169 20 -199 3 -29 0 -82 -7 -116 -11 -56 -10 -66 5 -89 13 -20 14 -27
4 -30 -70 -20 -106 -28 -183 -42 -49 -8 -97 -22 -106 -30 -18 -16 -75 -9 -216
27 -107 26 -156 47 -150 62 2 7 10 61 18 120 11 89 11 110 0 116 -10 6 -14 46
-15 152 -1 79 -8 193 -15 253 -15 124 -12 129 58 142 20 4 43 10 52 15 25 13
29 46 9 64 -18 16 -24 15 -99 -14 -44 -17 -89 -31 -99 -31 -11 0 -36 -7 -56
-15 -85 -36 -375 -26 -471 15 -67 29 -139 105 -153 162 -7 26 -12 58 -12 71 0
53 98 203 163 249 l29 21 -7 -22 c-14 -45 18 -81 55 -61 19 10 31 52 21 69 -4
5 -18 14 -31 19 -23 9 -19 13 59 51 47 22 97 41 111 41 15 0 40 7 56 15 73 36
341 67 397 46z m1519 -299 c0 -96 -25 -282 -48 -361 -10 -32 -11 -1 -3 84 4
50 8 140 8 200 1 61 4 148 8 195 l7 85 14 -45 c8 -27 14 -90 14 -158z m-600
21 c-4 -272 -8 -294 -10 -55 -1 122 1 222 6 222 4 0 6 -75 4 -167z m-2118 32
c3 -36 2 -52 -3 -40 -12 29 -23 134 -12 115 5 -8 11 -42 15 -75z m1953 -357
c-1 -40 -3 -10 -3 67 0 77 1 110 3 73 2 -37 2 -100 0 -140z m91 -273 c0 -62
-3 -99 -7 -85 -4 14 -7 106 -8 205 0 154 1 166 7 85 4 -52 8 -144 8 -205z
m-1708 239 c0 -14 5 -34 11 -45 9 -17 48 -318 49 -373 0 -15 -3 -16 -14 -6
-23 18 -36 102 -62 389 -5 54 -4 72 5 67 6 -4 11 -18 11 -32z m1617 -216 c-2
-35 -3 -9 -3 57 0 66 1 94 3 63 2 -32 2 -86 0 -120z m-1498 30 c14 -112 31
-297 30 -328 -1 -57 -17 17 -23 115 -4 55 -11 125 -16 155 -5 30 -11 84 -14
120 -8 93 10 43 23 -62z m89 -25 c7 -54 14 -143 17 -198 4 -88 3 -93 -5 -40
-16 101 -37 335 -30 335 4 0 12 -44 18 -97z m92 76 c0 -6 4 -52 10 -102 5 -51
14 -155 20 -232 6 -77 13 -161 15 -187 3 -27 1 -48 -5 -48 -9 0 -14 33 -25
145 -26 297 -36 393 -40 413 -4 15 -1 22 10 22 8 0 15 -5 15 -11z m259 -51 c6
-29 15 -132 21 -228 11 -185 16 -245 26 -322 4 -33 2 -48 -5 -48 -7 0 -13 6
-15 13 -12 43 -27 178 -36 324 -6 92 -14 198 -19 236 -4 37 -5 69 -3 72 13 13
21 1 31 -47z m1308 -211 c-2 -23 -3 -1 -3 48 0 50 1 68 3 42 2 -26 2 -67 0
-90z m97 29 c-3 -44 -7 -82 -9 -85 -3 -2 -5 40 -5 95 0 66 3 94 10 84 5 -8 7
-51 4 -94z m-263 -162 c-9 -38 -9 -38 -10 -7 -1 33 10 74 16 57 2 -6 -1 -28
-6 -50z m122 -144 c13 -1 -22 -30 -35 -30 -4 0 -8 9 -8 21 0 15 4 19 16 15 9
-3 21 -6 27 -6z" ++ dq ++
"/>
<path d=" ++ dq ++
"M912 1538 c-33 -33 4 -87 49 -73 26 9 44 52 28 71 -14 17 -61 18 -77
2z" ++ dq ++
"/>
</g>
</svg>

<br><br><br>
".

(** ... and after it. *)
Definition error_page_tail : string :=
"
</center>
".

(** [function error(msg)] *)
Definition error (msg : string) : string :=
  error_page_head ++ msg ++ error_page_tail.

(** [new Response(body, { status, headers })] *)
Definition new_Response (b : string) (st : Z) (h : Headers.t) : Response :=
  mkResponse st (Headers.copy h) b.

(** The text of the access-log line; [d] is [new Date().toISOString()]. *)
Definition log_line (d : string) (req : Request) (st : Z) : string :=
  let dateFmt := "[" ++ JS.slice 0 10 d ++ " " ++ JS.slice 11 19 d ++ "]" in
  dateFmt ++ " [" ++ method req ++ "] " ++ pathname (url req) ++ " " ++ JS.string_of_Z st.

(** [function log(req, status = 200)]: an omitted [status] is [None]. *)
Definition log (d : string) (req : Request) (st : option Z) : Js unit :=
  let st := match st with Some s => s | None => 200%Z end in
  write (Debug (log_line d req st)).

(* ================================================================== *)
(** ** The surroundings of the program                                 *)
(* ================================================================== *)

(** The options bundle handed to [serveDir]. *)
Record ServeOpts : Type := mkServeOpts {
  enableCors     : bool;
  showDirListing : bool;
  so_headers     : list string
}.

(** What the process sees when [httpd] is called. *)
Record Env : Type := mkEnv {
  cwd  : string;              (* Deno.cwd() *)
  args : list string          (* Deno.args  *)
}.

(** What one request sees: the file system, the static-file primitive and
    the clock. *)
Record World : Type := mkWorld {
  chdir_ok  : string -> bool;                       (* Deno.chdir(dir) returns *)
  exists_at : string -> string -> bool;             (* in directory, path: statSync returns *)
  serveDir  : Request -> ServeOpts -> Promise Response;
  now       : string                                (* new Date().toISOString() *)
}.

(** The caller's handler: it may mutate the [Headers] object it is given,
    and it returns a value or throws.  The state of the headers when it
    stops is returned next to its completion. *)
Definition Handler : Type := Request -> Headers.t -> Headers.t * Completion Value.

(** [Deno.chdir(dir)] *)
Definition Deno_chdir (w : World) (dir : string) : Js unit :=
  if chdir_ok w dir then ret tt else throw "NotFound".

(** [Deno.statSync(path)], with [dir] the working directory. *)
Definition Deno_statSync (w : World) (dir path : string) : Js unit :=
  if exists_at w dir path then ret tt else throw "NotFound".

(* ================================================================== *)
(** ** [httpd]: start-up                                               *)
(* ================================================================== *)

(** [opts.headers ?? []] *)
Definition headers_or_empty (opts : Opts) : list string :=
  match opt_headers opts with
  | Some l => l
  | None => []
  end.

(** The loop [for (const header of (opts.headers ?? []))]. *)
Fixpoint append_configured (h : Headers.t) (l : list string) : Js Headers.t :=
  match l with
  | [] => ret h
  | header :: l' =>
      let headerSplit := JS.split_colon header in
      h' <- or_type_error
              (Headers.append h (hd "undefined" headerSplit)
                                (JS.join_colon (tl headerSplit))) ;;
      append_configured h' l'
  end.

(** The construction of [headers_defaults]. *)
Definition build_headers_defaults (opts : Opts) : Js Headers.t :=
  h0 <- or_type_error (Headers.append Headers.empty "content-type" "text/html") ;;
  h1 <- append_configured h0 (headers_or_empty opts) ;;
  if truthy_key (opt_cors opts)
  then
    h2 <- or_type_error (Headers.append h1 "access-control-allow-origin" "*") ;;
    or_type_error (Headers.append h2 "access-control-allow-headers"
                     "Origin, X-Requested-With, Content-Type, Accept, Range")
  else ret h1.

(** What [httpd] has computed when it calls [Deno.serve]. *)
Record Server : Type := mkServer {
  srv_port             : option Z;
  srv_docroot          : string;
  srv_headers_defaults : Headers.t
}.

(** The body of [httpd] up to the call of [Deno.serve]. *)
Definition httpd_startup (opts : Opts) (env : Env) : Js Server :=
  let port := resolve_port opts (args env) in
  let docroot := cwd env in
  write (Log docroot) ;;
  headers_defaults <- build_headers_defaults opts ;;
  ret (mkServer port docroot headers_defaults).

(* ================================================================== *)
(** ** [httpd]: the per-request callback                               *)
(* ================================================================== *)

(** [url.pathname.slice(1) || (opts.ls ? '.' : 'index.html')] *)
Definition probe_candidate (opts : Opts) (u : URL) : string :=
  JS.or_string (JS.slice_from 1 (pathname u))
               (if truthy_key (opt_ls opts) then "." else "index.html").

Definition safe_htm (req : Request) : bool :=
  let u := url req in
  (method req =? "GET") &&
  (search u =? "") && (hash u =? "") &&
  (username u =? "") && (password u =? "") &&
  (JS.endsWith (pathname u) ".html" || JS.endsWith (pathname u) ".htm").

(** [e.match(/^content-security-policy/)] as a condition. *)
Definition matches_csp (e : string) : bool :=
  JS.startsWith e "content-security-policy".

Definition serve_opts (opts : Opts) (req : Request) : ServeOpts :=
  {| enableCors := key_or_true (opt_cors opts);
     showDirListing := key_or_true (opt_ls opts);
     so_headers := filter (fun e => negb (safe_htm req) || negb (matches_csp e))
                          (headers_or_empty opts) |}.

(** The outer [try] block. *)
Definition static_stage (opts : Opts) (docroot : string) (w : World)
    (req : Request) : Js Value :=
  Deno_chdir w docroot ;;
  let u := url req in
  Deno_statSync w docroot (probe_candidate opts u) ;;
  r <- await (serveDir w req (serve_opts opts req)) ;;
  ret (VResponse r).

(** [handler ? handler(req, headers) : undefined] *)
Definition call_handler (handler : option Handler) (req : Request)
    (h : Headers.t) : Headers.t * Completion Value :=
  match handler with
  | Some f => f req h
  | None => (h, Normal VUndefined)
  end.

(** The outer [catch] block.  The inner [try] either returns from the
    callback ([Some]) or falls through to the 404 ([None]). *)
Definition dynamic_stage (handler : option Handler) (headers_defaults : Headers.t)
    (w : World) (req : Request) : Js Value :=
  let '(hdrs, completion) := call_handler handler req (Headers.copy headers_defaults) in
  returned <-
    try_catch
      (res <- lift completion ;;
       if truthy res
       then log (now w) req None ;; ret (Some res)
       else ret None)
      (fun err =>
         write (Warn err) ;;
         log (now w) req (Some 500%Z) ;;
         hdrs' <- or_type_error (Headers.set hdrs "content-type" "text/html") ;;
         ret (Some (VResponse (new_Response (error "Internal Server Error") 500 hdrs')))) ;;
  match returned with
  | Some v => ret v
  | None =>
      log (now w) req (Some 404%Z) ;;
      hdrs' <- or_type_error (Headers.set hdrs "content-type" "text/html") ;;
      ret (VResponse (new_Response (error "Not Found") 404 hdrs'))
  end.

(** The body of the callback [async (req) => { try {...} catch {...} }]. *)
Definition on_request (handler : option Handler) (opts : Opts) (srv : Server)
    (w : World) (req : Request) : Js Value :=
  try_catch (static_stage opts (srv_docroot srv) w req)
            (fun _ => dynamic_stage handler (srv_headers_defaults srv) w req).

(** An [async] function: the promise it returns, and the console after. *)
Definition async (m : Js Value) (c : Console) : Promise Value * Console :=
  match m c with
  | (Normal v, c') => (resolve v, c')
  | (Throw e, c') => (Rejected e, c')
  end.

(** One request served by the server that [httpd(handler, opts)] started. *)
Definition serve (handler : option Handler) (opts : Opts) (srv : Server)
    (w : World) (req : Request) (c : Console) : Promise Value * Console :=
  async (on_request handler opts srv w req) c.

(** The lines that [log] wrote, among everything on the console. *)
Fixpoint access_lines (c : Console) : list string :=
  match c with
  | [] => []
  | Debug s :: c' => s :: access_lines c'
  | _ :: c' => access_lines c'
  end.

(** The request finds a static resource and [serveDir] answers it. *)
Definition static_served (opts : Opts) (srv : Server) (w : World) (req : Request)
    (r : Response) : Prop :=
  chdir_ok w (srv_docroot srv) = true /\
  exists_at w (srv_docroot srv) (probe_candidate opts (url req)) = true /\
  serveDir w req (serve_opts opts req) = Fulfilled r.

(** The outer [try] block throws: the request reaches the handler. *)
Definition takes_dynamic_path (opts : Opts) (srv : Server) (w : World)
    (req : Request) : Prop :=
  chdir_ok w (srv_docroot srv) = false \/
  exists_at w (srv_docroot srv) (probe_candidate opts (url req)) = false \/
  exists e, serveDir w req (serve_opts opts req) = Rejected e.

Ltac run_js :=
  cbv [bind try_catch lift ret throw write log or_type_error await
       Deno_chdir Deno_statSync new_Response].

(** The wording of the specification for the "safe HTML" requests. *)
Definition safe_html_request (req : Request) : Prop :=
  method req = "GET" /\
  search (url req) = "" /\ hash (url req) = "" /\
  username (url req) = "" /\ password (url req) = "" /\
  exists p, pathname (url req) = p ++ ".htm" \/ pathname (url req) = p ++ ".html".

(** "An entry that starts with the literal lower-case text". *)
Definition literal_csp_entry (e : string) : Prop :=
  exists r, e = "content-security-policy" ++ r.

(* ================================================================== *)
(** ** Sample inputs                                                   *)
(* ================================================================== *)

Module Sample.

Definition env : Env := mkEnv "/srv/www" ["-p8080"].

(** The server that [httpd(handler)] starts in [env] with [opts = {}]. *)
Definition srv : Server :=
  mkServer (Some 8080%Z) "/srv/www" [("content-type", "text/html")].

Definition clock : string := "2024-01-02T03:04:05.678Z".

Definition page : Response :=
  mkResponse 200 [("content-type", "text/html")] "<h1>docs</h1>".

(** A document root that holds [index.html] and [docs/index.html]. *)
Definition world_with_pages : World :=
  mkWorld (fun _ => true)
          (fun _ p => (p =? "index.html") || (p =? "docs/index.html"))
          (fun _ _ => Fulfilled page)
          clock.

(** An empty document root: a directory with no [index.html]. *)
Definition world_empty_dir : World :=
  mkWorld (fun _ => true)
          (fun _ p => p =? ".")
          (fun _ _ => Fulfilled (mkResponse 200 [] "listing"))
          clock.

(** A document root in which nothing the requests ask for exists. *)
Definition world_nothing : World :=
  mkWorld (fun _ => true) (fun _ _ => false) (fun _ _ => Rejected "NotFound") clock.

Definition get (path query : string) : Request :=
  mkRequest "GET" (mkURL path query "" "" "").

Definition created : Response :=
  mkResponse 201 [("content-type", "application/json")] "{}".

(** [(req, headers) => new Response('{}', { status: 201, ... })] *)
Definition creating_handler : Handler :=
  fun _ h => (h, Normal (VResponse created)).

(** [async () => { throw 'boom' }]: the promise it returns rejects. *)
Definition rejecting_handler : Handler :=
  fun _ h => (h, Normal (VPromise (Rejects "boom"))).

(** [(req, headers) => { headers.set('content-type', 'text/plain');
     headers.set('x-trace', '1'); throw 'boom' }] *)
Definition throwing_handler : Handler :=
  fun _ h =>
    (Headers.set_entry "x-trace" "1" (Headers.set_entry "content-type" "text/plain" h),
     Throw "boom").

(** [(req, headers) => { headers.set('content-type', 'text/plain');
     headers.set('x-trace', '1') }] *)
Definition silent_handler : Handler :=
  fun _ h =>
    (Headers.set_entry "x-trace" "1" (Headers.set_entry "content-type" "text/plain" h),
     Normal VUndefined).

Definition csp_opts : Opts :=
  mkOpts None None None
         (Some ["content-security-policy: default-src 'self'"; "x-frame-options: DENY"]).

(** The same policy under another casing and behind a blank. *)
Definition cased_opts : Opts :=
  mkOpts None None None
         (Some ["Content-Security-Policy: default-src 'self'";
                " content-security-policy: default-src 'self'"]).

(** The static-file primitive fails although the path exists. *)
Definition world_failing_primitive : World :=
  mkWorld (fun _ => true) (fun _ _ => true) (fun _ _ => Rejected "EACCES") clock.

(** [async () => {}]: the promise it returns is fulfilled with nothing. *)
Definition resolving_nothing_handler : Handler :=
  fun _ h => (h, Normal (VPromise (Fulfils VUndefined))).

(** A configured string whose name part holds a blank. *)
Definition bad_name_opts : Opts :=
  mkOpts None None None (Some ["x-frame-options: DENY"; "bad name: 1"]).

(** Two values under one name, and a content-type of the caller's own. *)
Definition rich_opts : Opts :=
  mkOpts None (Some true) None
         (Some ["Set-Cookie: a=1"; "set-cookie: b=2"; "Content-Type: text/plain"]).

End Sample.

(* ================================================================== *)
(** ** Names for what the start-up loop computes                       *)
(* ================================================================== *)

(** A string that holds no colon. *)
Fixpoint no_colon (s : string) : bool :=
  match s with
  | EmptyString => true
  | String c s' => negb (Ascii.eqb c ":") && no_colon s'
  end.

(** [headerSplit[0]] for one configured string. *)
Definition configured_name (header : string) : string :=
  hd "undefined" (JS.split_colon header).

(** [headerSplit.slice(1).join(':')] for one configured string. *)
Definition configured_value (header : string) : string :=
  JS.join_colon (tl (JS.split_colon header)).

(** The entry that [append] stores for one configured string. *)
Definition configured_entry (header : string) : string * string :=
  (Headers.lower (configured_name header),
   Headers.normalize_value (configured_value header)).

(** The two entries appended when [opts.cors] is truthy. *)
Definition cors_entries : Headers.t :=
  [("access-control-allow-origin", "*");
   ("access-control-allow-headers",
    "Origin, X-Requested-With, Content-Type, Accept, Range")].


(** The byte order of header names. *)
Definition name_le (a b : string) : Prop := (a <=? b)%string = true.

(** [l'] is [l] without its elements that satisfy [P], the others in
    their order. *)
Inductive without (P : string -> Prop) : list string -> list string -> Prop :=
| without_nil : without P [] []
| without_drop (e : string) (l l' : list string) :
    P e -> without P l l' -> without P (e :: l) l'
| without_keep (e : string) (l l' : list string) :
    ~ P e -> without P l l' -> without P (e :: l) (e :: l').

(* ================================================================== *)
(** ** Facts about the string helpers                                  *)
(* ================================================================== *)

Section StringFacts.

(** [endsWith] holds exactly of the strings that end in the suffix. *)
Lemma endsWith_iff (s suf : string) :
  JS.endsWith s suf = true <-> exists p, s = p ++ suf.
Proof.
  induction s as [|c s IH]; cbn [JS.endsWith].
  - rewrite orb_false_r, String.eqb_eq. split.
    + intros <-. now exists "".
    + intros [[|x p] H]; simpl in H; [congruence | discriminate].
  - rewrite orb_true_iff, String.eqb_eq, IH. split.
    + intros [-> | [p ->]]; [now exists "" | now exists (String c p)].
    + intros [[|x p] H]; simpl in H; [now left | right].
      injection H as _ ->. now exists p.
Qed.

(** [startsWith] holds exactly of the strings that begin with the prefix. *)
Lemma startsWith_iff (s p : string) :
  JS.startsWith s p = true <-> exists r, s = p ++ r.
Proof.
  unfold JS.startsWith. revert s.
  induction p as [|c p IH]; intros s; simpl.
  - split; [intros _; now exists s | intros _; now destruct s].
  - destruct s as [|d s]; [split; [discriminate | intros [r H]; discriminate] |].
    simpl. destruct (ascii_dec c d) as [-> | ne].
    + rewrite IH. split; intros [r H]; exists r; congruence.
    + split; [discriminate | intros [r H]; congruence].
Qed.

Lemma decimal_value_digits (s : string) :
  JS.all_digits s = true ->
  forall acc, (0 <= acc)%Z -> exists n, JS.decimal_value acc s = Some n /\ (0 <= n)%Z.
Proof.
  induction s as [|c s IH]; cbn [JS.all_digits JS.decimal_value]; intros Hd acc Hacc.
  - now exists acc.
  - apply andb_true_iff in Hd as [Hc Hs]. rewrite Hc.
    apply IH; [assumption |].
    unfold JS.is_digit in Hc. apply andb_true_iff in Hc as [Hlo _].
    apply Nat.leb_le in Hlo. lia.
Qed.

End StringFacts.

(* ================================================================== *)
(** ** Port resolution                                                 *)
(* ================================================================== *)

Section Port.

(** The test run by [find] accepts exactly the flags of the form
    "dash, lowercase p, three to five digits". *)
Lemma port_flag_test_iff (e : string) :
  port_flag_test e = true <-> is_port_flag e.
Proof.
  unfold port_flag_test, match_port_flag, is_port_flag. split.
  - destruct e as [|c1 [|c2 ds]]; try discriminate.
    destruct ((c1 =? "-")%char && (c2 =? "p")%char && JS.all_digits ds &&
              (3 <=? String.length ds)%nat && (String.length ds <=? 5)%nat) eqn:E;
      [| discriminate].
    intros _.
    repeat (apply andb_true_iff in E as [E ?]).
    apply Ascii.eqb_eq in E. apply Ascii.eqb_eq in H2. subst.
    exists ds. repeat split; auto; [now apply Nat.leb_le | now apply Nat.leb_le].
  - intros (ds & -> & Hd & Hlo & Hhi). cbn [append].
    rewrite !Ascii.eqb_refl, Hd.
    assert (Hne : exists c r, ds = String c r)
      by (destruct ds as [|c r]; [simpl in Hlo; lia | now exists c, r]).
    apply Nat.leb_le in Hlo as ->. apply Nat.leb_le in Hhi as ->.
    destruct Hne as (c & r & ->). reflexivity.
Qed.

Lemma find_first_flag (pre rest : list string) (e : string) :
  Forall (fun a => ~ is_port_flag a) pre -> is_port_flag e ->
  find port_flag_test (pre ++ e :: rest) = Some e.
Proof.
  intros Hpre He. induction Hpre as [|a pre Ha _ IH]; simpl.
  - apply port_flag_test_iff in He. now rewrite He.
  - destruct (port_flag_test a) eqn:E; [| exact IH].
    apply port_flag_test_iff in E. contradiction.
Qed.

Lemma find_no_flag (l : list string) :
  Forall (fun a => ~ is_port_flag a) l -> find port_flag_test l = None.
Proof.
  induction 1 as [|a l Ha _ IH]; simpl; [reflexivity |].
  destruct (port_flag_test a) eqn:E; [| exact IH].
  apply port_flag_test_iff in E. contradiction.
Qed.

Lemma resolve_port_flag (o : Opts) (pre rest : list string) (ds : string) :
  opt_port o = None ->
  Forall (fun a => ~ is_port_flag a) pre ->
  JS.all_digits ds = true -> (3 <= String.length ds <= 5)%nat ->
  resolve_port o (pre ++ ("-p" ++ ds) :: rest) = JS.decimal_value 0 ds.
Proof.
  intros Hp Hpre Hd Hlen. unfold resolve_port. rewrite Hp.
  rewrite (find_first_flag pre rest ("-p" ++ ds) Hpre).
  - simpl. destruct ds; [simpl in Hlen; lia | reflexivity].
  - exists ds. auto.
Qed.

End Port.

(** C8. Port resolution: an explicit [port] option wins; otherwise the
    first command-line argument of the form dash, lowercase p, three to
    five digits supplies the port (the number its digits denote);
    otherwise the port is 5000.  Arguments not of that form are skipped
    and cause no failure.  In particular ["-p8080"] without a port option
    gives 8080, and the option 9999 with ["-p8080"] gives 9999. *)
Theorem port_resolution_order :
  (forall o args p, opt_port o = Some p -> resolve_port o args = Some p) /\
  (forall o pre ds rest,
      opt_port o = None ->
      Forall (fun a => ~ is_port_flag a) pre ->
      JS.all_digits ds = true -> (3 <= String.length ds <= 5)%nat ->
      exists n, resolve_port o (pre ++ ("-p" ++ ds) :: rest) = Some n /\
                JS.decimal_value 0 ds = Some n /\ (0 <= n)%Z) /\
  (forall o args,
      opt_port o = None ->
      Forall (fun a => ~ is_port_flag a) args ->
      resolve_port o args = Some 5000%Z) /\
  resolve_port no_opts ["-p8080"] = Some 8080%Z /\
  resolve_port (mkOpts (Some 9999%Z) None None None) ["-p8080"] = Some 9999%Z.
Proof.
  repeat split.
  - intros o args p Hp. unfold resolve_port. now rewrite Hp.
  - intros o pre ds rest Hp Hpre Hd Hlen.
    destruct (decimal_value_digits ds Hd 0%Z) as (n & Hn & Hpos); [lia |].
    exists n. rewrite (resolve_port_flag o pre rest ds Hp Hpre Hd Hlen). auto.
  - intros o args Hp Hnone. unfold resolve_port.
    rewrite Hp, (find_no_flag args Hnone). reflexivity.
Qed.

Lemma not_flag_verbose : ~ is_port_flag "--verbose".
Proof.
  intro H. apply port_flag_test_iff in H. discriminate H.
Defined.

Lemma not_flag_short : ~ is_port_flag "-p80".
Proof.
  intro H. apply port_flag_test_iff in H. discriminate H.
Defined.

Lemma port_resolution_order_witness :
  resolve_port (mkOpts (Some 9999%Z) None None None) ["-p8080"] = Some 9999%Z /\
  (exists n, resolve_port no_opts (["--verbose"; "-p80"] ++ ("-p" ++ "8080") :: ["-p9000"]) = Some n /\
             JS.decimal_value 0 "8080" = Some n /\ (0 <= n)%Z) /\
  resolve_port no_opts ["--verbose"; "-p80"] = Some 5000%Z.
Proof.
  destruct port_resolution_order as (Hopt & Hflag & Hdef & _).
  split; [| split].
  - apply (Hopt (mkOpts (Some 9999%Z) None None None) ["-p8080"] 9999%Z). reflexivity.
  - apply (Hflag no_opts ["--verbose"; "-p80"] "8080" ["-p9000"]).
    + reflexivity.
    + repeat constructor; [exact not_flag_verbose | exact not_flag_short].
    + reflexivity.
    + simpl. lia.
  - apply (Hdef no_opts ["--verbose"; "-p80"]).
    + reflexivity.
    + repeat constructor; [exact not_flag_verbose | exact not_flag_short].
Defined.

(* ================================================================== *)
(** ** Facts about [Headers]                                           *)
(* ================================================================== *)

Section HeadersFacts.

Variable n : string.

Lemma remove_name_same (h : Headers.t) :
  filter (fun kv => fst kv =? n) (Headers.remove_name n h) = [].
Proof.
  induction h as [|[k v] h IH]; simpl; [reflexivity |].
  destruct (k =? n) eqn:E; [exact IH |].
  simpl. now rewrite E.
Qed.

Lemma remove_name_others (h : Headers.t) :
  filter (fun kv => negb (fst kv =? n)) (Headers.remove_name n h) =
  filter (fun kv => negb (fst kv =? n)) h.
Proof.
  induction h as [|[k v] h IH]; simpl; [reflexivity |].
  destruct (k =? n) eqn:E; simpl; [exact IH |].
  rewrite E. simpl. now rewrite IH.
Qed.

(** After [set], the name holds the one value that was set. *)
Lemma set_entry_same (v : string) (h : Headers.t) :
  map snd (filter (fun kv => fst kv =? n) (Headers.set_entry n v h)) = [v].
Proof.
  induction h as [|[k w] h IH]; simpl.
  - now rewrite String.eqb_refl.
  - destruct (k =? n) eqn:E; simpl.
    + now rewrite String.eqb_refl, remove_name_same.
    + now rewrite E.
Qed.

(** [set] leaves the entries of every other name as they were. *)
Lemma set_entry_others (v : string) (h : Headers.t) :
  filter (fun kv => negb (fst kv =? n)) (Headers.set_entry n v h) =
  filter (fun kv => negb (fst kv =? n)) h.
Proof.
  induction h as [|[k w] h IH]; simpl.
  - now rewrite String.eqb_refl.
  - destruct (k =? n) eqn:E; simpl.
    + rewrite String.eqb_refl. simpl. apply remove_name_others.
    + rewrite E. simpl. now rewrite IH.
Qed.

End HeadersFacts.

Lemma set_content_type (h : Headers.t) :
  Headers.set h "content-type" "text/html" =
  Some (Headers.set_entry "content-type" "text/html" h).
Proof. reflexivity. Qed.

Lemma values_after_set (h : Headers.t) :
  Headers.values (Headers.set_entry "content-type" "text/html" h) "content-type" =
  ["text/html"].
Proof. apply (set_entry_same "content-type"). Qed.

Lemma others_after_set (h : Headers.t) :
  Headers.others (Headers.set_entry "content-type" "text/html" h) "content-type" =
  Headers.others h "content-type".
Proof. apply (set_entry_others "content-type"). Qed.

(* ================================================================== *)
(** ** Facts about copies of [Headers]                                 *)
(* ================================================================== *)

Section NameOrder.

Lemma leb_true_iff (a b : string) :
  (a <=? b)%string = true <-> a = b \/ OrderedTypeEx.String_as_OT.lt a b.
Proof.
  unfold String.leb. destruct (String.compare a b) eqn:E.
  - split; [intros _; left; now apply String.compare_eq_iff | reflexivity].
  - split; [intros _; right | reflexivity].
    now apply OrderedTypeEx.String_as_OT.cmp_lt.
  - split; [discriminate |].
    intros [-> | H].
    + assert (Hr : String.compare b b = Eq)
        by now apply OrderedTypeEx.String_as_OT.cmp_eq.
      congruence.
    + apply OrderedTypeEx.String_as_OT.cmp_lt in H.
      unfold OrderedTypeEx.String_as_OT.cmp in H. congruence.
Qed.

Lemma leb_trans (a b c : string) :
  (a <=? b)%string = true -> (b <=? c)%string = true -> (a <=? c)%string = true.
Proof.
  rewrite !leb_true_iff. intros [-> | Hab] [-> | Hbc]; auto.
  right. exact (OrderedTypeEx.String_as_OT.lt_trans _ _ _ Hab Hbc).
Qed.

Lemma leb_flip (a b : string) :
  (a <=? b)%string = false -> (b <=? a)%string = true.
Proof.
  intros H. destruct (String.leb_total a b) as [H1 | H1]; congruence.
Qed.

Lemma insert_name_perm (a : string) (l : list string) :
  Permutation (Headers.insert_name a l) (a :: l).
Proof.
  induction l as [|x l IH]; cbn [Headers.insert_name]; [reflexivity |].
  destruct (a <=? x)%string; [reflexivity |].
  rewrite IH. apply perm_swap.
Qed.

Lemma sort_names_perm (l : list string) : Permutation (Headers.sort_names l) l.
Proof.
  induction l as [|a l IH]; cbn [Headers.sort_names fold_right]; [reflexivity |].
  rewrite insert_name_perm. now constructor.
Qed.

Lemma insert_name_sorted (a : string) (l : list string) :
  StronglySorted name_le l -> StronglySorted name_le (Headers.insert_name a l).
Proof.
  induction 1 as [|x l Hs IH Hx]; cbn [Headers.insert_name].
  - repeat constructor.
  - destruct (a <=? x)%string eqn:E.
    + constructor; [now constructor |].
      constructor; [exact E |].
      rewrite Forall_forall in *. intros y Hy.
      exact (leb_trans a x y E (Hx y Hy)).
    + constructor; [exact IH |].
      rewrite Forall_forall in *. intros y Hy.
      apply (Permutation_in _ (insert_name_perm a l)) in Hy.
      destruct Hy as [<- | Hy]; [now apply leb_flip | now apply Hx].
Qed.

Lemma sort_names_sorted (l : list string) :
  StronglySorted name_le (Headers.sort_names l).
Proof.
  induction l as [|a l IH]; cbn [Headers.sort_names fold_right]; [constructor |].
  now apply insert_name_sorted.
Qed.

(** Filtering a sorted list and inserting commute. *)
Lemma filter_insert_name (p : string -> bool) (a : string) (l : list string) :
  StronglySorted name_le l ->
  filter p (Headers.insert_name a l) =
  if p a then Headers.insert_name a (filter p l) else filter p l.
Proof.
  induction 1 as [|x l Hs IH Hx]; cbn [Headers.insert_name filter].
  - now destruct (p a).
  - destruct (a <=? x)%string eqn:E.
    + cbn [filter]. destruct (p a) eqn:Ea; [| reflexivity].
      assert (Hhead : forall m, Forall (name_le a) m -> Headers.insert_name a m = a :: m).
      { intros [|y m] Hm; cbn [Headers.insert_name]; [reflexivity |].
        inversion Hm as [|? ? Hy _]; subst. unfold name_le in Hy. now rewrite Hy. }
      symmetry. apply Hhead.
      rewrite Forall_forall in *. intros y Hy.
      change (In y (filter p (x :: l))) in Hy.
      apply filter_In in Hy as [[<- | Hy] _]; [exact E |].
      exact (leb_trans a x y E (Hx y Hy)).
    + cbn [filter]. rewrite IH.
      destruct (p x) eqn:Ex, (p a) eqn:Ea; cbn [Headers.insert_name]; rewrite ?E; reflexivity.
Qed.

Lemma filter_sort_names (p : string -> bool) (l : list string) :
  filter p (Headers.sort_names l) = Headers.sort_names (filter p l).
Proof.
  induction l as [|a l IH]; [reflexivity |].
  change (Headers.sort_names (a :: l))
    with (Headers.insert_name a (Headers.sort_names l)).
  rewrite (filter_insert_name p a _ (sort_names_sorted l)), IH.
  cbn [filter]. now destruct (p a).
Qed.

Lemma filter_nodup (p : string -> bool) (l : list string) :
  filter p (nodup string_dec l) = nodup string_dec (filter p l).
Proof.
  induction l as [|a l IH]; cbn [nodup filter]; [reflexivity |].
  destruct (in_dec string_dec a l) as [Hin | Hnin].
  - rewrite IH. destruct (p a) eqn:Ea; [| reflexivity].
    cbn [nodup]. destruct (in_dec string_dec a (filter p l)) as [_ | Hn]; [reflexivity |].
    exfalso. apply Hn, filter_In. now split.
  - cbn [filter]. rewrite IH. destruct (p a) eqn:Ea; [| reflexivity].
    cbn [nodup]. destruct (in_dec string_dec a (filter p l)) as [Hi | _]; [| reflexivity].
    apply filter_In in Hi as [Hi _]. contradiction.
Qed.

End NameOrder.

Section CopyFacts.

Variable q : string -> bool.

Lemma filter_by_name_entries (h : Headers.t) (m : string) :
  filter (fun kv => q (fst kv)) (Headers.entries_for h m) =
  if q m then Headers.entries_for h m else [].
Proof.
  unfold Headers.entries_for. destruct (m =? "set-cookie").
  - induction (Headers.raw_values h m) as [|v vs IH]; cbn [map filter fst].
    + now destruct (q m).
    + rewrite IH. now destruct (q m).
  - cbn [filter fst]. now destruct (q m).
Qed.

Lemma filter_by_name_flat_map (h : Headers.t) (names : list string) :
  filter (fun kv => q (fst kv)) (flat_map (Headers.entries_for h) names) =
  flat_map (Headers.entries_for h) (filter q names).
Proof.
  induction names as [|a names IH]; cbn [flat_map filter]; [reflexivity |].
  rewrite filter_app, filter_by_name_entries, IH.
  now destruct (q a).
Qed.

Lemma filter_map_keeping_name (g : string -> string) (l : Headers.t) :
  filter (fun kv => q (fst kv)) (map (fun kv => (fst kv, g (snd kv))) l) =
  map (fun kv => (fst kv, g (snd kv))) (filter (fun kv => q (fst kv)) l).
Proof.
  induction l as [|[k v] l IH]; cbn [map filter fst snd]; [reflexivity |].
  rewrite IH. now destruct (q k).
Qed.

Lemma map_fst_filter (l : Headers.t) :
  filter q (map fst l) = map fst (filter (fun kv => q (fst kv)) l).
Proof.
  induction l as [|[k v] l IH]; cbn [map filter fst]; [reflexivity |].
  rewrite IH. now destruct (q k).
Qed.

(** The part of a copy under the names that [q] selects. *)
Lemma filter_by_name_copy (h : Headers.t) :
  filter (fun kv => q (fst kv)) (Headers.copy h) =
  map (fun kv => (fst kv, Headers.normalize_value (snd kv)))
      (flat_map (Headers.entries_for h)
         (Headers.sort_names
            (nodup string_dec (map fst (filter (fun kv => q (fst kv)) h))))).
Proof.
  unfold Headers.copy, Headers.sort_and_combine, Headers.sorted_names.
  now rewrite filter_map_keeping_name, filter_by_name_flat_map,
    filter_sort_names, filter_nodup, map_fst_filter.
Qed.

Lemma filter_name_within (m : string) (l : Headers.t) :
  q m = true ->
  filter (fun kv => fst kv =? m) (filter (fun kv => q (fst kv)) l) =
  filter (fun kv => fst kv =? m) l.
Proof.
  intros Hm. induction l as [|[k v] l IH]; cbn [filter fst]; [reflexivity |].
  destruct (q k) eqn:Ek; cbn [filter fst]; rewrite IH; [reflexivity |].
  destruct (k =? m) eqn:E; [| reflexivity].
  apply String.eqb_eq in E. congruence.
Qed.

Lemma flat_map_agree {A B} (f g : A -> list B) (l : list A) :
  (forall a, In a l -> f a = g a) -> flat_map f l = flat_map g l.
Proof.
  induction l as [|a l IH]; cbn [flat_map]; intros H; [reflexivity |].
  rewrite (H a (or_introl eq_refl)), IH; [reflexivity |].
  intros b Hb. apply H. now right.
Qed.

(** Two header lists that agree under the names that [q] selects have
    copies that agree under these names. *)
Lemma copy_agree (x y : Headers.t) :
  filter (fun kv => q (fst kv)) x = filter (fun kv => q (fst kv)) y ->
  filter (fun kv => q (fst kv)) (Headers.copy x) =
  filter (fun kv => q (fst kv)) (Headers.copy y).
Proof.
  intros H. rewrite !filter_by_name_copy, H. f_equal.
  apply flat_map_agree. intros m Hm.
  apply (Permutation_in _ (sort_names_perm _)), nodup_In, in_map_iff in Hm.
  destruct Hm as ([k v] & <- & Hk). apply filter_In in Hk as [_ Hq]. cbn [fst] in *.
  unfold Headers.entries_for, Headers.raw_values.
  now rewrite <- (filter_name_within k x Hq), <- (filter_name_within k y Hq), H.
Qed.

End CopyFacts.

Lemma set_entry_entry (n v : string) (h : Headers.t) :
  filter (fun kv => fst kv =? n) (Headers.set_entry n v h) = [(n, v)].
Proof.
  induction h as [|[k w] h IH]; cbn [Headers.set_entry filter fst].
  - now rewrite String.eqb_refl.
  - destruct (k =? n) eqn:E; cbn [filter fst].
    + now rewrite String.eqb_refl, remove_name_same.
    + now rewrite E.
Qed.

(** A copy made after [set] holds the one value under the name. *)
Lemma values_copy_after_set (h : Headers.t) :
  Headers.values (Headers.copy (Headers.set_entry "content-type" "text/html" h))
                 "content-type" = ["text/html"].
Proof.
  unfold Headers.values.
  change (Headers.lower "content-type") with "content-type".
  rewrite (filter_by_name_copy (fun m => m =? "content-type")). cbv beta.
  rewrite (set_entry_entry "content-type" "text/html" h).
  replace (Headers.sort_names (nodup string_dec (map fst [("content-type", "text/html")])))
    with ["content-type"] by reflexivity.
  cbn [flat_map]. rewrite app_nil_r.
  unfold Headers.entries_for, Headers.raw_values.
  change ("content-type" =? "set-cookie") with false. cbv iota.
  rewrite (set_entry_entry "content-type" "text/html" h). reflexivity.
Qed.

(** A copy made after [set] holds under the other names what a copy made
    before it holds. *)
Lemma others_copy_after_set (h : Headers.t) :
  Headers.others (Headers.copy (Headers.set_entry "content-type" "text/html" h))
                 "content-type" =
  Headers.others (Headers.copy h) "content-type".
Proof.
  unfold Headers.others.
  apply (copy_agree (fun m => negb (m =? Headers.lower "content-type"))).
  apply (set_entry_others "content-type").
Qed.

Section HasFacts.

Lemma has_iff (h : Headers.t) (n : string) :
  Headers.has h n = true <-> exists v, In (Headers.lower n, v) h.
Proof.
  unfold Headers.has. rewrite existsb_exists. split.
  - intros ([k v] & Hin & E). cbn [fst] in E. apply String.eqb_eq in E. subst k.
    now exists v.
  - intros [v Hin]. exists (Headers.lower n, v). split; [exact Hin |].
    cbn [fst]. apply String.eqb_refl.
Qed.

Lemma entries_for_name (h : Headers.t) (k : string) (kv : string * string) :
  In kv (Headers.entries_for h k) -> fst kv = k.
Proof.
  unfold Headers.entries_for. destruct (k =? "set-cookie").
  - intros H. apply in_map_iff in H as (v & <- & _). reflexivity.
  - intros [<- | []]. reflexivity.
Qed.

Lemma sorted_names_iff (h : Headers.t) (k : string) :
  In k (Headers.sorted_names h) <-> exists v, In (k, v) h.
Proof.
  unfold Headers.sorted_names. split.
  - intros H. apply (Permutation_in _ (sort_names_perm _)), nodup_In, in_map_iff in H.
    destruct H as ([k' v] & <- & Hin). now exists v.
  - intros [v Hin].
    apply (Permutation_in _ (Permutation_sym (sort_names_perm _))), nodup_In, in_map_iff.
    now exists (k, v).
Qed.

Lemma entries_for_inhabited (h : Headers.t) (k v : string) :
  In (k, v) h -> exists v', In (k, v') (Headers.entries_for h k).
Proof.
  intros Hin. unfold Headers.entries_for. destruct (k =? "set-cookie").
  - exists v. apply in_map_iff. exists v. split; [reflexivity |].
    unfold Headers.raw_values. apply in_map_iff. exists (k, v). split; [reflexivity |].
    apply filter_In. split; [exact Hin | apply String.eqb_refl].
  - eexists. left. reflexivity.
Qed.

(** A copy has the names of the original. *)
Lemma has_copy (h : Headers.t) (n : string) :
  Headers.has (Headers.copy h) n = Headers.has h n.
Proof.
  apply eq_true_iff_eq. rewrite !has_iff.
  unfold Headers.copy, Headers.sort_and_combine. split.
  - intros [v Hin]. apply in_map_iff in Hin as ([k v0] & E & Hin).
    cbn [fst snd] in E. injection E as -> _.
    apply in_flat_map in Hin as (m & Hm & Hin).
    pose proof (entries_for_name h m _ Hin) as E. cbn [fst] in E. subst m.
    now apply sorted_names_iff.
  - intros [v Hin].
    destruct (entries_for_inhabited h _ v Hin) as [v' Hv'].
    exists (Headers.normalize_value v'). apply in_map_iff.
    exists (Headers.lower n, v'). split; [reflexivity |].
    apply in_flat_map. exists (Headers.lower n). split; [| exact Hv'].
    apply sorted_names_iff. now exists v.
Qed.

Lemma in_remove_name (n k v : string) (h : Headers.t) :
  k <> n -> (In (k, v) (Headers.remove_name n h) <-> In (k, v) h).
Proof.
  intros Hne. induction h as [|[k0 w] h IH]; cbn [Headers.remove_name]; [reflexivity |].
  destruct (k0 =? n) eqn:E.
  - rewrite IH. apply String.eqb_eq in E. subst k0. split; [now right |].
    intros [H | H]; [congruence | exact H].
  - cbn [In]. now rewrite IH.
Qed.

Lemma in_set_entry_other (n v k w : string) (h : Headers.t) :
  k <> n -> (In (k, w) (Headers.set_entry n v h) <-> In (k, w) h).
Proof.
  intros Hne. induction h as [|[k0 w0] h IH]; cbn [Headers.set_entry].
  - split; [intros [H | []]; congruence | intros []].
  - destruct (k0 =? n) eqn:E.
    + apply String.eqb_eq in E. subst k0. cbn [In].
      rewrite (in_remove_name n k w h Hne).
      split; (intros [H | H]; [congruence | now right]).
    + cbn [In]. now rewrite IH.
Qed.

Lemma in_set_entry_same (n v : string) (h : Headers.t) :
  In (n, v) (Headers.set_entry n v h).
Proof.
  induction h as [|[k0 w0] h IH]; cbn [Headers.set_entry]; [now left |].
  destruct (k0 =? n); [now left | now right].
Qed.

(** [set] adds the name it sets and no other. *)
Lemma has_set_entry (k v : string) (h : Headers.t) (n : string) :
  Headers.has (Headers.set_entry k v h) n = (Headers.lower n =? k) || Headers.has h n.
Proof.
  apply eq_true_iff_eq. rewrite orb_true_iff, !has_iff, String.eqb_eq. split.
  - intros [w Hin].
    destruct (string_dec (Headers.lower n) k) as [E | Ne]; [now left | right].
    exists w. now apply (in_set_entry_other k v (Headers.lower n) w h Ne).
  - intros [E | [w Hin]].
    + rewrite E. exists v. apply in_set_entry_same.
    + destruct (string_dec (Headers.lower n) k) as [E | Ne].
      * rewrite E. exists v. apply in_set_entry_same.
      * exists w. now apply in_set_entry_other.
Qed.

End HasFacts.

(* ================================================================== *)
(** ** The two stages of the callback                                  *)
(* ================================================================== *)

Section Stages.

Variable handler : option Handler.
Variable opts : Opts.
Variable srv : Server.
Variable w : World.
Variable req : Request.

(** Every request takes one of the two paths. *)
Lemma static_or_dynamic :
  (exists r, static_served opts srv w req r) \/ takes_dynamic_path opts srv w req.
Proof.
  unfold static_served, takes_dynamic_path.
  destruct (chdir_ok w (srv_docroot srv)); [| now right; left].
  destruct (exists_at w (srv_docroot srv) _); [| now right; right; left].
  destruct (serveDir w req (serve_opts opts req)) as [r | e].
  - left. now exists r.
  - right. right. right. now exists e.
Qed.

Lemma static_stage_served (r : Response) (c : Console) :
  static_served opts srv w req r ->
  static_stage opts (srv_docroot srv) w req c = (Normal (VResponse r), c).
Proof.
  intros (Hcd & Hst & Hsd). unfold static_stage. run_js.
  now rewrite Hcd, Hst, Hsd.
Qed.

Lemma static_stage_missed (c : Console) :
  takes_dynamic_path opts srv w req ->
  exists e, static_stage opts (srv_docroot srv) w req c = (Throw e, c).
Proof.
  unfold static_stage. run_js.
  intros [Hcd | [Hst | [e Hsd]]].
  - rewrite Hcd. now exists "NotFound".
  - destruct (chdir_ok w (srv_docroot srv)); rewrite ?Hst; now exists "NotFound".
  - destruct (chdir_ok w (srv_docroot srv)); [| now exists "NotFound"].
    destruct (exists_at w (srv_docroot srv) _); [| now exists "NotFound"].
    rewrite Hsd. now exists e.
Qed.

Lemma on_request_served (r : Response) (c : Console) :
  static_served opts srv w req r ->
  on_request handler opts srv w req c = (Normal (VResponse r), c).
Proof.
  intros H. unfold on_request, try_catch.
  now rewrite (static_stage_served r c H).
Qed.

Lemma on_request_missed (c : Console) :
  takes_dynamic_path opts srv w req ->
  on_request handler opts srv w req c =
  dynamic_stage handler (srv_headers_defaults srv) w req c.
Proof.
  intros H. unfold on_request, try_catch.
  destruct (static_stage_missed c H) as [e ->]. reflexivity.
Qed.

(** The handler returned a truthy value: it is returned as it is, after
    one log line with the default status. *)
Lemma dynamic_stage_returned (h' : Headers.t) (res : Value) (c : Console) :
  call_handler handler req (Headers.copy (srv_headers_defaults srv)) = (h', Normal res) ->
  truthy res = true ->
  dynamic_stage handler (srv_headers_defaults srv) w req c =
  (Normal res, (c ++ [Debug (log_line (now w) req 200)])%list).
Proof.
  intros Hcall Htr. unfold dynamic_stage. rewrite Hcall.
  run_js. now rewrite Htr.
Qed.

(** The handler returned a falsy value (or there is no handler). *)
Lemma dynamic_stage_nothing (h' : Headers.t) (res : Value) (c : Console) :
  call_handler handler req (Headers.copy (srv_headers_defaults srv)) = (h', Normal res) ->
  truthy res = false ->
  dynamic_stage handler (srv_headers_defaults srv) w req c =
  (Normal (VResponse (mkResponse 404
    (Headers.copy (Headers.set_entry "content-type" "text/html" h')) (error "Not Found"))),
   (c ++ [Debug (log_line (now w) req 404)])%list).
Proof.
  intros Hcall Htr. unfold dynamic_stage. rewrite Hcall.
  run_js. rewrite Htr, set_content_type. reflexivity.
Qed.

(** The handler threw. *)
Lemma dynamic_stage_threw (h' : Headers.t) (err : Err) (c : Console) :
  call_handler handler req (Headers.copy (srv_headers_defaults srv)) = (h', Throw err) ->
  dynamic_stage handler (srv_headers_defaults srv) w req c =
  (Normal (VResponse (mkResponse 500
    (Headers.copy (Headers.set_entry "content-type" "text/html" h'))
    (error "Internal Server Error"))),
   ((c ++ [Warn err]) ++ [Debug (log_line (now w) req 500)])%list).
Proof.
  intros Hcall. unfold dynamic_stage. rewrite Hcall.
  run_js. rewrite set_content_type. reflexivity.
Qed.

End Stages.

(* ================================================================== *)
(** ** The callback as a whole                                         *)
(* ================================================================== *)

Section Serve.

Variable handler : option Handler.
Variable opts : Opts.
Variable srv : Server.
Variable w : World.
Variable req : Request.

Lemma serve_served (r : Response) (c : Console) :
  static_served opts srv w req r ->
  serve handler opts srv w req c = (Fulfilled (VResponse r), c).
Proof.
  intros H. unfold serve, async. now rewrite (on_request_served handler _ _ _ _ r c H).
Qed.

Lemma serve_missed (c : Console) :
  takes_dynamic_path opts srv w req ->
  serve handler opts srv w req c =
  async (dynamic_stage handler (srv_headers_defaults srv) w req) c.
Proof.
  intros H. unfold serve, async. now rewrite (on_request_missed handler _ _ _ _ c H).
Qed.

Lemma serve_returned (h' : Headers.t) (res : Value) (c : Console) :
  takes_dynamic_path opts srv w req ->
  call_handler handler req (Headers.copy (srv_headers_defaults srv)) = (h', Normal res) ->
  truthy res = true ->
  serve handler opts srv w req c =
  (resolve res, (c ++ [Debug (log_line (now w) req 200)])%list).
Proof.
  intros Hdyn Hcall Htr. rewrite (serve_missed c Hdyn). unfold async.
  now rewrite (dynamic_stage_returned handler srv w req h' res c Hcall Htr).
Qed.

Lemma serve_nothing (h' : Headers.t) (res : Value) (c : Console) :
  takes_dynamic_path opts srv w req ->
  call_handler handler req (Headers.copy (srv_headers_defaults srv)) = (h', Normal res) ->
  truthy res = false ->
  serve handler opts srv w req c =
  (Fulfilled (VResponse (mkResponse 404
    (Headers.copy (Headers.set_entry "content-type" "text/html" h')) (error "Not Found"))),
   (c ++ [Debug (log_line (now w) req 404)])%list).
Proof.
  intros Hdyn Hcall Htr. rewrite (serve_missed c Hdyn). unfold async.
  now rewrite (dynamic_stage_nothing handler srv w req h' res c Hcall Htr).
Qed.

Lemma serve_threw (h' : Headers.t) (err : Err) (c : Console) :
  takes_dynamic_path opts srv w req ->
  call_handler handler req (Headers.copy (srv_headers_defaults srv)) = (h', Throw err) ->
  serve handler opts srv w req c =
  (Fulfilled (VResponse (mkResponse 500
    (Headers.copy (Headers.set_entry "content-type" "text/html" h'))
    (error "Internal Server Error"))),
   ((c ++ [Warn err]) ++ [Debug (log_line (now w) req 500)])%list).
Proof.
  intros Hdyn Hcall. rewrite (serve_missed c Hdyn). unfold async.
  now rewrite (dynamic_stage_threw handler srv w req h' err c Hcall).
Qed.

End Serve.

Lemma sample_startup :
  httpd_startup no_opts Sample.env [] = (Normal Sample.srv, [Log "/srv/www"]).
Proof. reflexivity. Qed.

(* ================================================================== *)
(** ** The access log                                                  *)
(* ================================================================== *)




(* ================================================================== *)
(** ** The handler's result                                            *)
(* ================================================================== *)

(** C2, on the code.  When the handler returns a promise that rejects, the
    callback has already written the log line with status 200 and hands
    the promise back without awaiting it: the callback's own promise
    rejects with the same reason, nothing goes to [console.warn], and no
    500 page is made. *)
Theorem pending_rejection_escapes
    (handler : option Handler) (opts : Opts) (srv : Server) (w : World)
    (req : Request) (h' : Headers.t) (e : Err) (c : Console) :
  takes_dynamic_path opts srv w req ->
  call_handler handler req (Headers.copy (srv_headers_defaults srv)) =
    (h', Normal (VPromise (Rejects e))) ->
  serve handler opts srv w req c =
  (Rejected e, (c ++ [Debug (log_line (now w) req 200)])%list).
Proof.
  intros Hdyn Hcall.
  now rewrite (serve_returned handler opts srv w req h' _ c Hdyn Hcall eq_refl).
Qed.

Lemma pending_rejection_escapes_witness :
  serve (Some Sample.rejecting_handler) no_opts Sample.srv Sample.world_nothing
        (Sample.get "/api" "") [] =
  (Rejected "boom", [Debug "[2024-01-02 03:04:05] [GET] /api 200"]).
Proof.
  apply (pending_rejection_escapes (Some Sample.rejecting_handler) no_opts Sample.srv
           Sample.world_nothing (Sample.get "/api" "")
           [("content-type", "text/html")] "boom" []).
  - right. left. reflexivity.
  - reflexivity.
Defined.

(** C5, as the code has it.  When no static resource answers and the
    handler returns a response, that response is what the callback
    returns, unchanged, and exactly one log line is written; the line
    carries the status 200 whatever status the response declares. *)
Theorem handler_response_verbatim
    (handler : option Handler) (opts : Opts) (srv : Server) (w : World)
    (req : Request) (h' : Headers.t) (r : Response) (c : Console) :
  takes_dynamic_path opts srv w req ->
  call_handler handler req (Headers.copy (srv_headers_defaults srv)) =
    (h', Normal (VResponse r)) ->
  serve handler opts srv w req c =
  (Fulfilled (VResponse r), (c ++ [Debug (log_line (now w) req 200)])%list).
Proof.
  intros Hdyn Hcall.
  now rewrite (serve_returned handler opts srv w req h' _ c Hdyn Hcall eq_refl).
Qed.

Lemma handler_response_verbatim_witness :
  serve (Some Sample.creating_handler) no_opts Sample.srv Sample.world_nothing
        (Sample.get "/api" "") [] =
  (Fulfilled (VResponse Sample.created), [Debug "[2024-01-02 03:04:05] [GET] /api 200"]).
Proof.
  apply (handler_response_verbatim (Some Sample.creating_handler) no_opts Sample.srv
           Sample.world_nothing (Sample.get "/api" "")
           [("content-type", "text/html")] Sample.created []).
  - right. left. reflexivity.
  - reflexivity.
Defined.

(** C5 as stated fails: the handler's response declares status 201 and the
    log line does not record it. *)
Lemma declared_status_not_logged :
  takes_dynamic_path no_opts Sample.srv Sample.world_nothing (Sample.get "/api" "") /\
  call_handler (Some Sample.creating_handler) (Sample.get "/api" "")
               (Headers.copy (srv_headers_defaults Sample.srv)) =
    ([("content-type", "text/html")], Normal (VResponse Sample.created)) /\
  status Sample.created = 201%Z /\
  access_lines (snd (serve (Some Sample.creating_handler) no_opts Sample.srv
                       Sample.world_nothing (Sample.get "/api" "") [])) <>
    [log_line (now Sample.world_nothing) (Sample.get "/api" "") (status Sample.created)].
Proof.
  split; [right; left; reflexivity |].
  split; [reflexivity |].
  split; [reflexivity |].
  vm_compute. discriminate.
Qed.

(** The error page is the fixed template around the message. *)
Lemma error_page_shape (msg : string) :
  error msg = error_page_head ++ msg ++ error_page_tail.
Proof. reflexivity. Qed.

(** The part of C6 that the code meets.  When the request reaches the
    handler and the handler returns a falsy value synchronously (or there
    is no handler), the response has status 404, its body is the rendered
    "Not Found" page, its content-type is text/html whatever the handler
    did to that field, under every other name it has what a copy of the
    headers the handler left has, and one log line with status 404 is
    written. *)
Lemma nothing_returned_gives_404
    (handler : option Handler) (opts : Opts) (srv : Server) (w : World)
    (req : Request) (h' : Headers.t) (res : Value) (c : Console) :
  takes_dynamic_path opts srv w req ->
  (handler = None /\ h' = Headers.copy (srv_headers_defaults srv) \/
   exists f, handler = Some f /\
             f req (Headers.copy (srv_headers_defaults srv)) = (h', Normal res) /\
             truthy res = false) ->
  exists r,
    serve handler opts srv w req c =
      (Fulfilled (VResponse r), (c ++ [Debug (log_line (now w) req 404)])%list) /\
    status r = 404%Z /\
    body r = error "Not Found" /\
    Headers.values (headers r) "content-type" = ["text/html"] /\
    Headers.others (headers r) "content-type" =
      Headers.others (Headers.copy h') "content-type".
Proof.
  intros Hdyn Hh.
  assert (Hcall : exists v,
             call_handler handler req (Headers.copy (srv_headers_defaults srv)) =
               (h', Normal v) /\ truthy v = false).
  { destruct Hh as [[-> ->] | (f & -> & Hf & Htr)].
    - now exists VUndefined.
    - now exists res. }
  destruct Hcall as (v & Hcall & Htr).
  eexists. split; [apply (serve_nothing handler opts srv w req h' v c Hdyn Hcall Htr) |].
  cbn [status body headers].
  repeat split; [apply values_copy_after_set | apply others_copy_after_set].
Qed.

Lemma nothing_returned_gives_404_example :
  exists r,
    serve (Some Sample.silent_handler) no_opts Sample.srv Sample.world_nothing
          (Sample.get "/api" "") [] =
      (Fulfilled (VResponse r), [Debug "[2024-01-02 03:04:05] [GET] /api 404"]) /\
    status r = 404%Z /\
    body r = error "Not Found" /\
    Headers.values (headers r) "content-type" = ["text/html"] /\
    Headers.others (headers r) "content-type" = [("x-trace", "1")].
Proof.
  apply (nothing_returned_gives_404 (Some Sample.silent_handler) no_opts Sample.srv
           Sample.world_nothing (Sample.get "/api" "")
           [("content-type", "text/plain"); ("x-trace", "1")] VUndefined []).
  - right. left. reflexivity.
  - right. exists Sample.silent_handler. repeat split; reflexivity.
Defined.

Lemma falsy_resolves_to_itself (v : Value) :
  truthy v = false -> resolve v = Fulfilled v.
Proof. destruct v; cbn [truthy resolve]; try reflexivity; discriminate. Qed.

(** C6, on the code.  A handler that completes without a response through
    a promise (an async handler that returns nothing) gets no 404 page:
    the promise is truthy, so the callback writes the log line with status
    200, hands the promise back, and is fulfilled with the nothing the
    promise was fulfilled with.  No response is made and no line with
    status 404 is written. *)
Theorem pending_nothing_gets_no_404
    (handler : option Handler) (opts : Opts) (srv : Server) (w : World)
    (req : Request) (h' : Headers.t) (v : Value) (c : Console) :
  takes_dynamic_path opts srv w req ->
  call_handler handler req (Headers.copy (srv_headers_defaults srv)) =
    (h', Normal (VPromise (Fulfils v))) ->
  truthy v = false ->
  serve handler opts srv w req c =
  (Fulfilled v, (c ++ [Debug (log_line (now w) req 200)])%list).
Proof.
  intros Hdyn Hcall Hv.
  rewrite (serve_returned handler opts srv w req h' _ c Hdyn Hcall eq_refl).
  cbn [resolve]. now rewrite (falsy_resolves_to_itself v Hv).
Qed.

Lemma pending_nothing_gets_no_404_witness :
  serve (Some Sample.resolving_nothing_handler) no_opts Sample.srv Sample.world_nothing
        (Sample.get "/api" "") [] =
  (Fulfilled VUndefined, [Debug "[2024-01-02 03:04:05] [GET] /api 200"]).
Proof.
  apply (pending_nothing_gets_no_404 (Some Sample.resolving_nothing_handler) no_opts
           Sample.srv Sample.world_nothing (Sample.get "/api" "")
           [("content-type", "text/html")] VUndefined []).
  - right. left. reflexivity.
  - reflexivity.
  - reflexivity.
Defined.

(** C7. When the request reaches the handler and the handler throws, the
    response has status 500, its body is the rendered "Internal Server
    Error" page (a fixed text, the same whatever was thrown), its
    content-type is text/html, and what was thrown goes to [console.warn]
    only; one log line with status 500 follows it.  Under every name
    other than content-type the response has what a copy of the headers
    the handler left has. *)
Theorem handler_throw_gives_500
    (f : Handler) (opts : Opts) (srv : Server) (w : World)
    (req : Request) (h' : Headers.t) (err : Err) (c : Console) :
  takes_dynamic_path opts srv w req ->
  f req (Headers.copy (srv_headers_defaults srv)) = (h', Throw err) ->
  exists r,
    serve (Some f) opts srv w req c =
      (Fulfilled (VResponse r),
       (c ++ [Warn err; Debug (log_line (now w) req 500)])%list) /\
    status r = 500%Z /\
    body r = error "Internal Server Error" /\
    Headers.values (headers r) "content-type" = ["text/html"] /\
    Headers.others (headers r) "content-type" =
      Headers.others (Headers.copy h') "content-type".
Proof.
  intros Hdyn Hcall.
  eexists. split.
  - rewrite (serve_threw (Some f) opts srv w req h' err c Hdyn Hcall).
    now rewrite <- app_assoc.
  - cbn [status body headers].
    repeat split; [apply values_copy_after_set | apply others_copy_after_set].
Qed.

Lemma handler_throw_gives_500_witness :
  exists r,
    serve (Some Sample.throwing_handler) no_opts Sample.srv Sample.world_nothing
          (Sample.get "/api" "") [] =
      (Fulfilled (VResponse r),
       [Warn "boom"; Debug "[2024-01-02 03:04:05] [GET] /api 500"]) /\
    status r = 500%Z /\
    body r = error "Internal Server Error" /\
    Headers.values (headers r) "content-type" = ["text/html"] /\
    Headers.others (headers r) "content-type" = [("x-trace", "1")].
Proof.
  apply (handler_throw_gives_500 Sample.throwing_handler no_opts Sample.srv
           Sample.world_nothing (Sample.get "/api" "")
           [("content-type", "text/plain"); ("x-trace", "1")] "boom" []).
  - right. left. reflexivity.
  - reflexivity.
Defined.

(* ================================================================== *)
(** ** Defaults of [cors] and [ls]                                     *)
(* ================================================================== *)

(** C3, on the code.  With the [cors] key absent the option resolves to
    true for the static-file primitive, yet the header template built at
    start-up holds the content-type entry only: no CORS header.  With the
    key given, the template has the two CORS headers exactly when the
    value is true. *)
Theorem cors_template_by_key (p : option Z) (l : option bool) (req : Request) :
  (enableCors (serve_opts (mkOpts p None l None) req) = true /\
   build_headers_defaults (mkOpts p None l None) [] =
     (Normal [("content-type", "text/html")], []) /\
   Headers.has [("content-type", "text/html")] "access-control-allow-origin" = false) /\
  build_headers_defaults (mkOpts p (Some true) l None) [] =
    (Normal [("content-type", "text/html");
             ("access-control-allow-origin", "*");
             ("access-control-allow-headers",
              "Origin, X-Requested-With, Content-Type, Accept, Range")], []) /\
  build_headers_defaults (mkOpts p (Some false) l None) [] =
    (Normal [("content-type", "text/html")], []).
Proof. repeat split. Qed.

(** C4, on the code.  For the path "/" the probe's candidate is "." only
    when [ls] is given as true; with the key absent it is "index.html",
    although directory listing resolves to enabled for the static-file
    primitive.  In an empty document root such a request ends as a 404. *)
Theorem root_candidate_by_key
    (p : option Z) (c : option bool) (hs : option (list string))
    (q f u pw : string) (req : Request) :
  (showDirListing (serve_opts (mkOpts p c None hs) req) = true /\
   probe_candidate (mkOpts p c None hs) (mkURL "/" q f u pw) = "index.html") /\
  probe_candidate (mkOpts p c (Some true) hs) (mkURL "/" q f u pw) = "." /\
  probe_candidate (mkOpts p c (Some false) hs) (mkURL "/" q f u pw) = "index.html" /\
  (exists r, fst (serve None no_opts Sample.srv Sample.world_empty_dir
                    (Sample.get "/" "") []) = Fulfilled (VResponse r) /\
             status r = 404%Z).
Proof.
  repeat split.
  eexists. split; reflexivity.
Qed.

(* ================================================================== *)
(** ** The headers handed to the static-file primitive                 *)
(* ================================================================== *)

Section StaticHeaders.

Lemma safe_htm_iff (req : Request) :
  safe_htm req = true <-> safe_html_request req.
Proof.
  unfold safe_htm, safe_html_request.
  rewrite !andb_true_iff, orb_true_iff, !String.eqb_eq, !endsWith_iff.
  split.
  - intros (((((Hm & Hs) & Hh) & Hu) & Hp) & [[x Hx] | [x Hx]]);
      repeat split; auto; exists x; auto.
  - intros (Hm & Hs & Hh & Hu & Hp & x & [Hx | Hx]);
      repeat split; auto; [right | left]; now exists x.
Qed.

Lemma matches_csp_iff (e : string) :
  matches_csp e = true <-> literal_csp_entry e.
Proof. apply startsWith_iff. Qed.

Lemma filter_all {A} (f : A -> bool) (l : list A) :
  (forall x, In x l -> f x = true) -> filter f l = l.
Proof.
  induction l as [|a l IH]; simpl; intros H; [reflexivity |].
  rewrite (H a (or_introl eq_refl)), IH; auto.
Qed.

Lemma so_headers_safe (opts : Opts) (req : Request) :
  safe_htm req = true ->
  so_headers (serve_opts opts req) =
  filter (fun e => negb (matches_csp e)) (headers_or_empty opts).
Proof.
  intros H. unfold serve_opts. cbn [so_headers]. rewrite H.
  apply filter_ext. reflexivity.
Qed.

Lemma so_headers_unsafe (opts : Opts) (req : Request) :
  safe_htm req = false ->
  so_headers (serve_opts opts req) = headers_or_empty opts.
Proof.
  intros H. unfold serve_opts. cbn [so_headers]. rewrite H.
  apply filter_all. reflexivity.
Qed.

Lemma append_same_length (a b c d : string) :
  String.length a = String.length c -> a ++ b = c ++ d -> a = c.
Proof.
  revert c. induction a as [|x a IH]; intros [|y c] Hlen Heq;
    try discriminate; [reflexivity |].
  simpl in Hlen, Heq. injection Heq as -> Heq. f_equal.
  apply IH; [lia | assumption].
Qed.

End StaticHeaders.

(** The code's filter removes exactly the entries that start with the
    literal text, and keeps the others in their order. *)
Lemma filter_without (l : list string) :
  without literal_csp_entry l (filter (fun e => negb (matches_csp e)) l).
Proof.
  induction l as [|e l IH]; cbn [filter]; [constructor |].
  destruct (matches_csp e) eqn:E; cbn [negb].
  - apply without_drop; [now apply matches_csp_iff | exact IH].
  - apply without_keep; [| exact IH].
    intros H. apply matches_csp_iff in H. congruence.
Qed.

(** What is left when the entries that satisfy [P] are taken out is
    determined by the list. *)
Lemma without_unique (P : string -> Prop) (l a b : list string) :
  without P l a -> without P l b -> a = b.
Proof.
  intros Ha. revert b.
  induction Ha as [| e l a He _ IH | e l a He _ IH]; intros b Hb; inversion Hb; subst;
    try contradiction; [reflexivity | now apply IH | f_equal; now apply IH].
Qed.

(** C9. For a request served statically, the header list handed to the
    static-file primitive is the configured list without the entries that
    start with "content-security-policy" (the others in their order) when
    the request is a GET with empty query, fragment, user name and
    password whose path ends in ".htm" or ".html", and the configured
    list unchanged when any of these fails. *)
Theorem csp_dropped_exactly_when_safe
    (opts : Opts) (srv : Server) (w : World) (req : Request) (c : Console) :
  chdir_ok w (srv_docroot srv) = true ->
  exists_at w (srv_docroot srv) (probe_candidate opts (url req)) = true ->
  static_stage opts (srv_docroot srv) w req c =
    (match serveDir w req (serve_opts opts req) with
     | Fulfilled r => Normal (VResponse r)
     | Rejected e => Throw e
     end, c) /\
  (safe_html_request req ->
     without literal_csp_entry (headers_or_empty opts)
             (so_headers (serve_opts opts req))) /\
  (~ safe_html_request req ->
     so_headers (serve_opts opts req) = headers_or_empty opts).
Proof.
  intros Hcd Hst. split; [| split].
  - unfold static_stage. run_js. rewrite Hcd, Hst.
    now destruct (serveDir w req (serve_opts opts req)).
  - intros H. apply safe_htm_iff in H.
    rewrite (so_headers_safe opts req H). apply filter_without.
  - intros H. apply so_headers_unsafe.
    destruct (safe_htm req) eqn:E; [| reflexivity].
    apply safe_htm_iff in E. contradiction.
Qed.

Lemma csp_dropped_exactly_when_safe_witness :
  without literal_csp_entry
          ["content-security-policy: default-src 'self'"; "x-frame-options: DENY"]
          (so_headers (serve_opts Sample.csp_opts (Sample.get "/docs/index.html" ""))) /\
  so_headers (serve_opts Sample.csp_opts (Sample.get "/docs/index.html" "?x=1")) =
    ["content-security-policy: default-src 'self'"; "x-frame-options: DENY"].
Proof.
  split.
  - refine (proj1 (proj2 (csp_dropped_exactly_when_safe Sample.csp_opts Sample.srv
                            Sample.world_with_pages (Sample.get "/docs/index.html" "") []
                            _ _)) _).
    + reflexivity.
    + reflexivity.
    + repeat split; try reflexivity. exists "/docs/index". right. reflexivity.
  - refine (proj2 (proj2 (csp_dropped_exactly_when_safe Sample.csp_opts Sample.srv
                            Sample.world_with_pages (Sample.get "/docs/index.html" "?x=1") []
                            _ _)) _).
    + reflexivity.
    + reflexivity.
    + intros (_ & Hq & _). discriminate Hq.
Defined.

(** The two requests of the specification's example. *)
Lemma safe_html_example :
  so_headers (serve_opts Sample.csp_opts (Sample.get "/docs/index.html" "")) =
    ["x-frame-options: DENY"] /\
  so_headers (serve_opts Sample.csp_opts (Sample.get "/docs/index.html" "?x=1")) =
    ["content-security-policy: default-src 'self'"; "x-frame-options: DENY"].
Proof. split; reflexivity. Qed.

(** C10. The filter of the safe-HTML exemption compares the start of each
    configured string with the literal lower-case text
    "content-security-policy".  For a safe-HTML request every configured
    entry that does not start with exactly that text is handed to the
    static-file primitive; this covers every other casing of the name and
    every entry with a leading blank. *)
Theorem csp_filter_is_case_sensitive (opts : Opts) (req : Request) :
  safe_html_request req ->
  (forall e, In e (headers_or_empty opts) -> ~ literal_csp_entry e ->
             In e (so_headers (serve_opts opts req))) /\
  (Forall (fun e => ~ literal_csp_entry e) (headers_or_empty opts) ->
     so_headers (serve_opts opts req) = headers_or_empty opts) /\
  (forall name rest,
      String.length name = String.length "content-security-policy" ->
      name <> "content-security-policy" ->
      ~ literal_csp_entry (name ++ rest)) /\
  (forall ws rest, Headers.is_http_ws ws = true -> ~ literal_csp_entry (String ws rest)).
Proof.
  intros Hsafe. apply safe_htm_iff in Hsafe.
  split; [| split; [| split]].
  - intros e Hin Hlit. rewrite (so_headers_safe opts req Hsafe).
    apply filter_In. split; [assumption |].
    destruct (matches_csp e) eqn:E; [| reflexivity].
    apply matches_csp_iff in E. contradiction.
  - intros Hall. rewrite (so_headers_safe opts req Hsafe).
    apply filter_all. intros e Hin.
    rewrite Forall_forall in Hall. specialize (Hall e Hin).
    destruct (matches_csp e) eqn:E; [| reflexivity].
    apply matches_csp_iff in E. contradiction.
  - intros name rest Hlen Hne [r Hr].
    apply Hne. exact (append_same_length _ _ _ _ Hlen Hr).
  - intros ws rest Hws [r Hr]. simpl in Hr. injection Hr as -> _. discriminate Hws.
Qed.

Lemma csp_filter_is_case_sensitive_witness :
  so_headers (serve_opts Sample.cased_opts (Sample.get "/docs/index.html" "")) =
    ["Content-Security-Policy: default-src 'self'";
     " content-security-policy: default-src 'self'"].
Proof.
  refine (proj1 (proj2 (csp_filter_is_case_sensitive Sample.cased_opts
                          (Sample.get "/docs/index.html" "") _)) _).
  - repeat split; try reflexivity. exists "/docs/index". right. reflexivity.
  - repeat constructor; intros H; apply matches_csp_iff in H; discriminate H.
Defined.


(* ================================================================== *)
(** ** Further properties: configured header strings                   *)
(* ================================================================== *)

Section HeaderStrings.

Lemma split_colon_nonempty (s : string) : JS.split_colon s <> [].
Proof.
  destruct s as [|c s]; cbn [JS.split_colon]; [discriminate |].
  destruct (Ascii.eqb c ":"); [discriminate |].
  destruct (JS.split_colon s); discriminate.
Qed.

Lemma split_colon_plain (s : string) :
  no_colon s = true -> JS.split_colon s = [s].
Proof.
  induction s as [|c s IH]; cbn [no_colon JS.split_colon]; [reflexivity |].
  intros H. apply andb_true_iff in H as [Hc Hs].
  apply negb_true_iff in Hc. rewrite Hc, (IH Hs). reflexivity.
Qed.

Lemma split_colon_first (name rest : string) :
  no_colon name = true ->
  JS.split_colon (name ++ ":" ++ rest) = name :: JS.split_colon rest.
Proof.
  induction name as [|c name IH]; cbn [no_colon append JS.split_colon].
  - intros _. reflexivity.
  - intros H. apply andb_true_iff in H as [Hc Hs].
    apply negb_true_iff in Hc. rewrite Hc.
    change (String ":" rest) with (":" ++ rest). rewrite (IH Hs). reflexivity.
Qed.

Lemma join_colon_cons_char (c : ascii) (p : string) (ps : list string) :
  JS.join_colon (String c p :: ps) = String c (JS.join_colon (p :: ps)).
Proof. destruct ps; reflexivity. Qed.

Lemma join_colon_empty_first (ps : list string) :
  ps <> [] -> JS.join_colon (EmptyString :: ps) = String ":" (JS.join_colon ps).
Proof. destruct ps; [contradiction | reflexivity]. Qed.

(** Joining the pieces of a split gives the string back. *)
Lemma join_split_colon (s : string) : JS.join_colon (JS.split_colon s) = s.
Proof.
  induction s as [|c s IH]; cbn [JS.split_colon]; [reflexivity |].
  destruct (Ascii.eqb c ":") eqn:E.
  - apply Ascii.eqb_eq in E. subst c.
    rewrite (join_colon_empty_first _ (split_colon_nonempty s)), IH. reflexivity.
  - destruct (JS.split_colon s) as [|p ps] eqn:Es;
      [now apply split_colon_nonempty in Es |].
    rewrite join_colon_cons_char, IH. reflexivity.
Qed.

End HeaderStrings.

(** X1. A configured string is cut at its first colon only: the text
    before it is the name and all the text after it, later colons
    included, is the value.  A string with no colon is a name with an
    empty value. *)
Theorem header_cut_at_first_colon (name value : string) :
  no_colon name = true ->
  (configured_name (name ++ ":" ++ value) = name /\
   configured_value (name ++ ":" ++ value) = value) /\
  (configured_name name = name /\ configured_value name = "").
Proof.
  intros H. unfold configured_name, configured_value.
  rewrite (split_colon_first name value H), (split_colon_plain name H).
  cbn [hd tl]. repeat split. apply join_split_colon.
Qed.

Lemma header_cut_at_first_colon_witness :
  (configured_name ("content-security-policy" ++ ":" ++ " img-src https://a:8443") =
     "content-security-policy" /\
   configured_value ("content-security-policy" ++ ":" ++ " img-src https://a:8443") =
     " img-src https://a:8443") /\
  (configured_name "content-security-policy" = "content-security-policy" /\
   configured_value "content-security-policy" = "").
Proof.
  apply (header_cut_at_first_colon "content-security-policy" " img-src https://a:8443").
  reflexivity.
Defined.

(* ================================================================== *)
(** ** Further properties: start-up                                    *)
(* ================================================================== *)

Section Startup.

Lemma append_some (h h' : Headers.t) (name value : string) :
  Headers.append h name value = Some h' ->
  h' = (h ++ [(Headers.lower name, Headers.normalize_value value)])%list.
Proof.
  unfold Headers.append.
  destruct (Headers.valid_name name && Headers.valid_value (Headers.normalize_value value));
    [now intros [= <-] | discriminate].
Qed.

Lemma append_bad_name (h : Headers.t) (name value : string) :
  Headers.valid_name name = false -> Headers.append h name value = None.
Proof. intros H. unfold Headers.append. now rewrite H. Qed.

(** The loop leaves the console alone and, when it ends, has appended one
    entry per configured string, in order. *)
Lemma append_configured_normal (l : list string) :
  forall (h0 h : Headers.t) (c c' : Console),
    append_configured h0 l c = (Normal h, c') ->
    c' = c /\ h = (h0 ++ map configured_entry l)%list.
Proof.
  induction l as [|header l IH]; intros h0 h c c'; cbn [append_configured map].
  - run_js. intros [= <- <-]. now rewrite app_nil_r.
  - run_js.
    destruct (Headers.append h0 _ _) as [h1 |] eqn:E; [| discriminate].
    intros H. apply IH in H as [-> ->]. split; [reflexivity |].
    apply append_some in E. subst h1. now rewrite <- app_assoc.
Qed.

(** The loop throws nothing but a [TypeError], and does so as soon as one
    configured name is not a token. *)
Lemma append_configured_bad (l : list string) (header : string) :
  In header l ->
  Headers.valid_name (configured_name header) = false ->
  forall (h0 : Headers.t) (c : Console),
    append_configured h0 l c = (Throw "TypeError", c).
Proof.
  intros Hin Hbad. induction l as [|x l IH]; [contradiction |].
  intros h0 c. cbn [append_configured]. run_js.
  destruct (Headers.append h0 _ _) as [h1 |] eqn:E; [| reflexivity].
  destruct Hin as [-> | Hin].
  - fold (configured_name header) in E.
    now rewrite (append_bad_name h0 _ _ Hbad) in E.
  - apply (IH Hin).
Qed.

Lemma build_headers_defaults_normal (opts : Opts) (c c' : Console) (h : Headers.t) :
  build_headers_defaults opts c = (Normal h, c') ->
  c' = c /\
  h = (("content-type", "text/html") ::
       map configured_entry (headers_or_empty opts) ++
       (if truthy_key (opt_cors opts) then cors_entries else []))%list.
Proof.
  unfold build_headers_defaults.
  change (or_type_error (Headers.append Headers.empty "content-type" "text/html"))
    with (@ret Headers.t [("content-type", "text/html")]).
  cbv [bind ret].
  destruct (append_configured _ (headers_or_empty opts) c) as [[h1 | e] c1] eqn:E;
    [| discriminate].
  apply append_configured_normal in E as [-> ->].
  destruct (truthy_key (opt_cors opts)).
  - intros [= <- <-]. split; [reflexivity |].
    cbn [app]. now rewrite <- app_assoc.
  - intros [= <- <-]. split; [reflexivity |]. now rewrite app_nil_r.
Qed.

End Startup.

Lemma template_layout_aux (opts : Opts) (env : Env) (c c' : Console) (srv : Server) :
  httpd_startup opts env c = (Normal srv, c') ->
  srv_headers_defaults srv =
    (("content-type", "text/html") ::
     map configured_entry (headers_or_empty opts) ++
     (if truthy_key (opt_cors opts) then cors_entries else []))%list.
Proof.
  unfold httpd_startup. cbv [bind write ret].
  destruct (build_headers_defaults opts _) as [[h | e] c1] eqn:E; [| discriminate].
  apply build_headers_defaults_normal in E as [-> ->].
  now intros [= <- <-].
Qed.

(** X2. When the template of default headers is built, it is: the entry
    content-type: text/html first; then one entry per configured string,
    in the order given, name in lower case and value trimmed, entries of
    the same name all kept; then the two CORS entries when [opts.cors] is
    truthy.  Start-up writes the docroot line to the console and nothing
    else. *)
Theorem template_layout (opts : Opts) (env : Env) (c c' : Console) (srv : Server) :
  httpd_startup opts env c = (Normal srv, c') ->
  c' = (c ++ [Log (cwd env)])%list /\
  srv_headers_defaults srv =
    (("content-type", "text/html") ::
     map configured_entry (headers_or_empty opts) ++
     (if truthy_key (opt_cors opts) then cors_entries else []))%list.
Proof.
  unfold httpd_startup. cbv [bind write ret].
  destruct (build_headers_defaults opts _) as [[h | e] c1] eqn:E; [| discriminate].
  apply build_headers_defaults_normal in E as [-> ->].
  intros [= <- <-]. split; reflexivity.
Qed.

Lemma template_layout_witness :
  [Log "/srv/www"] = ([] ++ [Log (cwd Sample.env)])%list /\
  [("content-type", "text/html"); ("set-cookie", "a=1"); ("set-cookie", "b=2");
   ("content-type", "text/plain");
   ("access-control-allow-origin", "*");
   ("access-control-allow-headers",
    "Origin, X-Requested-With, Content-Type, Accept, Range")] =
    (("content-type", "text/html") ::
     map configured_entry (headers_or_empty Sample.rich_opts) ++
     (if truthy_key (opt_cors Sample.rich_opts) then cors_entries else []))%list.
Proof.
  apply (template_layout Sample.rich_opts Sample.env [] [Log "/srv/www"]
           (mkServer (Some 8080%Z) "/srv/www"
              [("content-type", "text/html"); ("set-cookie", "a=1"); ("set-cookie", "b=2");
               ("content-type", "text/plain");
               ("access-control-allow-origin", "*");
               ("access-control-allow-headers",
                "Origin, X-Requested-With, Content-Type, Accept, Range")])).
  reflexivity.
Defined.

(** X3. A configured string whose name part (the text before its first
    colon) is not an HTTP token, an empty name included, makes [httpd]
    throw a TypeError after the docroot line was written: the server is
    never started. *)
Theorem startup_throws_on_bad_name
    (opts : Opts) (env : Env) (c : Console) (header : string) :
  In header (headers_or_empty opts) ->
  Headers.valid_name (configured_name header) = false ->
  httpd_startup opts env c = (Throw "TypeError", (c ++ [Log (cwd env)])%list).
Proof.
  intros Hin Hbad. unfold httpd_startup, build_headers_defaults.
  change (or_type_error (Headers.append Headers.empty "content-type" "text/html"))
    with (@ret Headers.t [("content-type", "text/html")]).
  cbv [bind write ret].
  now rewrite (append_configured_bad _ header Hin Hbad).
Qed.

Lemma startup_throws_on_bad_name_witness :
  httpd_startup Sample.bad_name_opts Sample.env [] =
  (Throw "TypeError", [Log "/srv/www"]).
Proof.
  apply (startup_throws_on_bad_name Sample.bad_name_opts Sample.env [] "bad name: 1").
  - right. left. reflexivity.
  - reflexivity.
Defined.

(* ================================================================== *)
(** ** Further properties: the port and the probe                      *)
(* ================================================================== *)

Section PortBounds.



End PortBounds.



(** X5. The path handed to [Deno.statSync] is never the empty string; for
    a URL path with text after its first character it is that text,
    whatever [opts.ls] is. *)
Theorem probe_candidate_not_empty (opts : Opts) (u : URL) :
  probe_candidate opts u <> "" /\
  (forall c p, pathname u = String c p -> p <> "" -> probe_candidate opts u = p).
Proof.
  unfold probe_candidate, JS.or_string. split.
  - destruct (JS.slice_from 1 (pathname u)) as [|x r]; cbn.
    + destruct (truthy_key (opt_ls opts)); discriminate.
    + discriminate.
  - intros c p Hp Hne. rewrite Hp. cbn [JS.slice_from].
    destruct p as [|x r]; [contradiction | reflexivity].
Qed.

Lemma probe_candidate_not_empty_witness :
  probe_candidate no_opts (url (Sample.get "/docs/index.html" "")) = "docs/index.html".
Proof.
  apply (proj2 (probe_candidate_not_empty no_opts (url (Sample.get "/docs/index.html" "")))
           "/"%char "docs/index.html").
  - reflexivity.
  - discriminate.
Defined.

(* ================================================================== *)
(** ** Further properties: routing                                     *)
(* ================================================================== *)

Section Settling.

Lemma rejected_is_truthy (v : Value) (e : Err) :
  resolve v = Rejected e -> truthy v = true.
Proof. destruct v; cbn [resolve truthy]; try discriminate; reflexivity. Qed.

Lemma call_handler_cases (handler : option Handler) (req : Request) (h : Headers.t) :
  (exists h' v, call_handler handler req h = (h', Normal v)) \/
  (exists h' err, call_handler handler req h = (h', Throw err)).
Proof.
  destruct (call_handler handler req h) as [h' [v | err]];
    [left; now exists h', v | right; now exists h', err].
Qed.

End Settling.

(** X6. Every request is served in exactly one of two ways.  Either the
    static-file primitive answers it: the callback resolves to the
    primitive's response and writes nothing.  Or the callback's result is
    that of the handler stage, and exactly one access-log line is written.
    Never both. *)
Theorem one_path_per_request
    (handler : option Handler) (opts : Opts) (srv : Server) (w : World) (req : Request) :
  ((exists r, serveDir w req (serve_opts opts req) = Fulfilled r /\
              serve handler opts srv w req [] = (Fulfilled (VResponse r), [])) \/
   (serve handler opts srv w req [] =
      async (dynamic_stage handler (srv_headers_defaults srv) w req) [] /\
    exists line, access_lines (snd (serve handler opts srv w req [])) = [line])) /\
  ~ ((exists r, serve handler opts srv w req [] = (Fulfilled (VResponse r), [])) /\
     (exists line, access_lines (snd (serve handler opts srv w req [])) = [line])).
Proof.
  split.
  - destruct (static_or_dynamic opts srv w req) as [[r Hs] | Hdyn].
    + left. exists r. split; [apply Hs | apply (serve_served handler opts srv w req r [] Hs)].
    + right. split; [apply (serve_missed handler opts srv w req [] Hdyn) |].
      destruct (call_handler_cases handler req (Headers.copy (srv_headers_defaults srv)))
        as [(h' & v & Hcall) | (h' & err & Hcall)].
      * destruct (truthy v) eqn:Htr.
        -- rewrite (serve_returned handler opts srv w req h' v [] Hdyn Hcall Htr).
           eexists. reflexivity.
        -- rewrite (serve_nothing handler opts srv w req h' v [] Hdyn Hcall Htr).
           eexists. reflexivity.
      * rewrite (serve_threw handler opts srv w req h' err [] Hdyn Hcall).
        eexists. reflexivity.
  - intros [[r Hr] [line Hl]]. rewrite Hr in Hl. discriminate Hl.
Qed.

(** X7. A request answered by the static-file primitive never involves
    the handler: the response is the primitive's own, the console is left
    as it was, and both are the same whatever the handler is. *)
Theorem static_hit_ignores_handler
    (h1 h2 : option Handler) (opts : Opts) (srv : Server) (w : World)
    (req : Request) (r : Response) (c : Console) :
  static_served opts srv w req r ->
  serve h1 opts srv w req c = (Fulfilled (VResponse r), c) /\
  serve h1 opts srv w req c = serve h2 opts srv w req c.
Proof.
  intros H.
  rewrite (serve_served h1 opts srv w req r c H), (serve_served h2 opts srv w req r c H).
  split; reflexivity.
Qed.

Lemma static_hit_ignores_handler_witness :
  serve (Some Sample.throwing_handler) no_opts Sample.srv Sample.world_with_pages
        (Sample.get "/index.html" "") [] = (Fulfilled (VResponse Sample.page), []) /\
  serve (Some Sample.throwing_handler) no_opts Sample.srv Sample.world_with_pages
        (Sample.get "/index.html" "") [] =
  serve None no_opts Sample.srv Sample.world_with_pages (Sample.get "/index.html" "") [].
Proof.
  apply (static_hit_ignores_handler (Some Sample.throwing_handler) None no_opts Sample.srv
           Sample.world_with_pages (Sample.get "/index.html" "") Sample.page []).
  repeat split; reflexivity.
Defined.

(** X8. When the path exists but the static-file primitive rejects, the
    rejection is swallowed and the request falls back to the handler
    stage; without a handler the client gets the 404 page and a log line
    with status 404, and the reason of the rejection shows up nowhere. *)
Theorem primitive_failure_falls_back
    (opts : Opts) (srv : Server) (w : World) (req : Request) (e : Err) (c : Console) :
  chdir_ok w (srv_docroot srv) = true ->
  exists_at w (srv_docroot srv) (probe_candidate opts (url req)) = true ->
  serveDir w req (serve_opts opts req) = Rejected e ->
  serve None opts srv w req c =
  (Fulfilled (VResponse (mkResponse 404
      (Headers.copy (Headers.set_entry "content-type" "text/html"
                       (Headers.copy (srv_headers_defaults srv))))
      (error "Not Found"))),
   (c ++ [Debug (log_line (now w) req 404)])%list).
Proof.
  intros _ _ Hsd.
  apply (serve_nothing None opts srv w req _ VUndefined c).
  - right. right. now exists e.
  - reflexivity.
  - reflexivity.
Qed.

Lemma primitive_failure_falls_back_witness :
  serve None no_opts Sample.srv Sample.world_failing_primitive
        (Sample.get "/secret.txt" "") [] =
  (Fulfilled (VResponse (mkResponse 404 [("content-type", "text/html")]
                                    (error "Not Found"))),
   [Debug "[2024-01-02 03:04:05] [GET] /secret.txt 404"]).
Proof.
  apply (primitive_failure_falls_back no_opts Sample.srv Sample.world_failing_primitive
           (Sample.get "/secret.txt" "") "EACCES" []); reflexivity.
Defined.

(* ================================================================== *)
(** ** Further properties: what the callback resolves to               *)
(* ================================================================== *)


(** X9. The promise of the callback rejects in one case only: the request
    reached the handler stage and the handler returned a promise that
    rejects.  A missing file, a failing static-file primitive and a
    handler that throws all end in a fulfilled promise. *)
Theorem callback_rejects_only_through_handler_promise
    (handler : option Handler) (opts : Opts) (srv : Server) (w : World)
    (req : Request) (e : Err) (c : Console) :
  (exists c', serve handler opts srv w req c = (Rejected e, c')) <->
  (takes_dynamic_path opts srv w req /\
   exists h' v,
     call_handler handler req (Headers.copy (srv_headers_defaults srv)) = (h', Normal v) /\
     resolve v = Rejected e).
Proof.
  split.
  - intros [c' H].
    destruct (static_or_dynamic opts srv w req) as [[r Hs] | Hdyn].
    + rewrite (serve_served handler opts srv w req r c Hs) in H. discriminate H.
    + split; [exact Hdyn |].
      destruct (call_handler_cases handler req (Headers.copy (srv_headers_defaults srv)))
        as [(h' & v & Hcall) | (h' & err & Hcall)].
      * exists h', v. split; [exact Hcall |].
        destruct (truthy v) eqn:Htr.
        -- rewrite (serve_returned handler opts srv w req h' v c Hdyn Hcall Htr) in H.
           now injection H as H _.
        -- rewrite (serve_nothing handler opts srv w req h' v c Hdyn Hcall Htr) in H.
           discriminate H.
      * rewrite (serve_threw handler opts srv w req h' err c Hdyn Hcall) in H.
        discriminate H.
  - intros (Hdyn & h' & v & Hcall & Hrej).
    eexists.
    rewrite (serve_returned handler opts srv w req h' v c Hdyn Hcall
               (rejected_is_truthy v e Hrej)), Hrej.
    reflexivity.
Qed.

Lemma callback_rejects_only_through_handler_promise_witness :
  exists c', serve (Some Sample.rejecting_handler) no_opts Sample.srv Sample.world_nothing
                   (Sample.get "/api" "") [] = (Rejected "boom", c').
Proof.
  apply (proj2 (callback_rejects_only_through_handler_promise
                  (Some Sample.rejecting_handler) no_opts Sample.srv Sample.world_nothing
                  (Sample.get "/api" "") "boom" [])).
  split.
  - right. left. reflexivity.
  - exists [("content-type", "text/html")], (VPromise (Rejects "boom")).
    split; reflexivity.
Defined.

(** X10. A promise returned by the handler is passed on as it is, after a
    log line with status 200: the callback settles the way the promise
    does.  In particular a handler whose promise is fulfilled with nothing
    gets no 404 page: the callback is fulfilled with nothing. *)
Theorem handler_promise_passed_on
    (handler : option Handler) (opts : Opts) (srv : Server) (w : World)
    (req : Request) (h' : Headers.t) (p : Settlement) (c : Console) :
  takes_dynamic_path opts srv w req ->
  call_handler handler req (Headers.copy (srv_headers_defaults srv)) =
    (h', Normal (VPromise p)) ->
  serve handler opts srv w req c =
  (match p with
   | Fulfils v => resolve v
   | Rejects e => Rejected e
   end, (c ++ [Debug (log_line (now w) req 200)])%list).
Proof.
  intros Hdyn Hcall.
  rewrite (serve_returned handler opts srv w req h' _ c Hdyn Hcall eq_refl).
  now destruct p.
Qed.

Lemma handler_promise_passed_on_witness :
  serve (Some Sample.resolving_nothing_handler) no_opts Sample.srv Sample.world_nothing
        (Sample.get "/api" "") [] =
  (Fulfilled VUndefined, [Debug "[2024-01-02 03:04:05] [GET] /api 200"]).
Proof.
  apply (handler_promise_passed_on (Some Sample.resolving_nothing_handler) no_opts Sample.srv
           Sample.world_nothing (Sample.get "/api" "")
           [("content-type", "text/html")] (Fulfils VUndefined) []).
  - right. left. reflexivity.
  - reflexivity.
Defined.

(** X11. Something is written with [console.warn] exactly when the request
    reached the handler stage and the handler threw, and what is written
    is the thrown value. *)
Theorem warn_exactly_on_throw
    (handler : option Handler) (opts : Opts) (srv : Server) (w : World)
    (req : Request) (e : Err) :
  In (Warn e) (snd (serve handler opts srv w req [])) <->
  (takes_dynamic_path opts srv w req /\
   exists h',
     call_handler handler req (Headers.copy (srv_headers_defaults srv)) = (h', Throw e)).
Proof.
  split.
  - intros H.
    destruct (static_or_dynamic opts srv w req) as [[r Hs] | Hdyn].
    + rewrite (serve_served handler opts srv w req r [] Hs) in H. contradiction.
    + split; [exact Hdyn |].
      destruct (call_handler_cases handler req (Headers.copy (srv_headers_defaults srv)))
        as [(h' & v & Hcall) | (h' & err & Hcall)].
      * destruct (truthy v) eqn:Htr.
        -- rewrite (serve_returned handler opts srv w req h' v [] Hdyn Hcall Htr) in H.
           destruct H as [H | []]. discriminate H.
        -- rewrite (serve_nothing handler opts srv w req h' v [] Hdyn Hcall Htr) in H.
           destruct H as [H | []]. discriminate H.
      * rewrite (serve_threw handler opts srv w req h' err [] Hdyn Hcall) in H.
        destruct H as [H | [H | []]]; [| discriminate H].
        injection H as ->. now exists h'.
  - intros (Hdyn & h' & Hcall).
    rewrite (serve_threw handler opts srv w req h' e [] Hdyn Hcall).
    left. reflexivity.
Qed.

Lemma warn_exactly_on_throw_witness :
  In (Warn "boom")
     (snd (serve (Some Sample.throwing_handler) no_opts Sample.srv Sample.world_nothing
             (Sample.get "/api" "") [])).
Proof.
  apply (proj2 (warn_exactly_on_throw (Some Sample.throwing_handler) no_opts Sample.srv
                  Sample.world_nothing (Sample.get "/api" "") "boom")).
  split.
  - right. left. reflexivity.
  - exists [("content-type", "text/plain"); ("x-trace", "1")]. reflexivity.
Defined.

(* ================================================================== *)
(** ** Further properties: the log line and the error page             *)
(* ================================================================== *)

Section Pages.

Lemma length_append_str (a b : string) :
  String.length (a ++ b) = (String.length a + String.length b)%nat.
Proof. induction a as [|x a IH]; simpl; [reflexivity | now rewrite IH]. Qed.

Lemma append_assoc_str (a b c : string) : (a ++ b) ++ c = a ++ (b ++ c).
Proof. induction a as [|x a IH]; simpl; [reflexivity | now rewrite IH]. Qed.

Lemma append_inv_head (a b c : string) : a ++ b = a ++ c -> b = c.
Proof.
  induction a as [|x a IH]; simpl; intros H; [exact H |].
  injection H as H. exact (IH H).
Qed.

Lemma append_inv_tail (a b t : string) : a ++ t = b ++ t -> a = b.
Proof.
  intros H. apply (append_same_length a t b t); [| exact H].
  apply (f_equal String.length) in H. rewrite !length_append_str in H. lia.
Qed.

(** The first ten characters and characters 11 to 18 of an ISO time. *)
Lemma iso_slices (date time rest : string) :
  String.length date = 10%nat -> String.length time = 8%nat ->
  JS.slice 0 10 (date ++ "T" ++ time ++ rest) = date /\
  JS.slice 11 19 (date ++ "T" ++ time ++ rest) = time.
Proof.
  intros Hd Ht.
  destruct date as [|d0 [|d1 [|d2 [|d3 [|d4 [|d5 [|d6 [|d7 [|d8 [|d9 [|x date]]]]]]]]]]];
    try discriminate Hd.
  destruct time as [|t0 [|t1 [|t2 [|t3 [|t4 [|t5 [|t6 [|t7 [|y time]]]]]]]]];
    try discriminate Ht.
  split; [reflexivity | destruct rest; reflexivity].
Qed.

End Pages.

(** X12. For a time stamp made of a ten-character date, the letter T, an
    eight-character time and anything after it, the log line reads
    [[date time] [METHOD] path status]. *)
Theorem log_line_format (date time rest : string) (req : Request) (st : Z) :
  String.length date = 10%nat -> String.length time = 8%nat ->
  log_line (date ++ "T" ++ time ++ rest) req st =
  "[" ++ date ++ " " ++ time ++ "] [" ++ method req ++ "] " ++
  pathname (url req) ++ " " ++ JS.string_of_Z st.
Proof.
  intros Hd Ht. unfold log_line.
  destruct (iso_slices date time rest Hd Ht) as [-> ->].
  rewrite !append_assoc_str. reflexivity.
Qed.

Lemma log_line_format_witness :
  log_line ("2024-01-02" ++ "T" ++ "03:04:05" ++ ".678Z") (Sample.get "/api" "") 404 =
  "[" ++ "2024-01-02" ++ " " ++ "03:04:05" ++ "] [" ++ "GET" ++ "] " ++
  "/api" ++ " " ++ "404".
Proof.
  apply (log_line_format "2024-01-02" "03:04:05" ".678Z" (Sample.get "/api" "") 404);
    reflexivity.
Defined.

(** X13. Different messages give different error pages: the page
    determines its message, so the 404 page and the 500 page differ. *)
Theorem error_pages_differ (m1 m2 : string) :
  m1 <> m2 -> error m1 <> error m2.
Proof.
  unfold error. intros Hne H. apply Hne.
  apply append_inv_head in H. apply append_inv_tail in H. exact H.
Qed.

Lemma error_pages_differ_witness :
  error "Not Found" <> error "Internal Server Error".
Proof.
  apply (error_pages_differ "Not Found" "Internal Server Error"). discriminate.
Defined.

(* ================================================================== *)
(** ** Further properties: headers of the error responses              *)
(* ================================================================== *)

Lemma existsb_configured (k : string) (l : list string) :
  existsb (fun kv => fst kv =? k) (map configured_entry l) =
  existsb (fun s => Headers.lower (configured_name s) =? k) l.
Proof.
  induction l as [|x l IH]; cbn [map existsb]; [reflexivity |].
  now rewrite IH.
Qed.

(** X14. On a server started by [httpd] without a handler, the 404
    response has exactly one content-type, text/html, and it has a header
    name exactly when the template of default headers has it: the
    configured names and, when [opts.cors] is truthy, the CORS names. *)
Theorem error_response_headers
    (opts : Opts) (env : Env) (c0 c1 : Console) (srv : Server)
    (w : World) (req : Request) (c : Console) :
  httpd_startup opts env c0 = (Normal srv, c1) ->
  takes_dynamic_path opts srv w req ->
  exists r,
    serve None opts srv w req c =
      (Fulfilled (VResponse r), (c ++ [Debug (log_line (now w) req 404)])%list) /\
    status r = 404%Z /\
    Headers.values (headers r) "content-type" = ["text/html"] /\
    (forall n, Headers.has (headers r) n = Headers.has (srv_headers_defaults srv) n) /\
    (forall n, Headers.has (headers r) n =
               (Headers.lower n =? "content-type") ||
               existsb (fun s => Headers.lower (configured_name s) =? Headers.lower n)
                       (headers_or_empty opts) ||
               (truthy_key (opt_cors opts) && Headers.has cors_entries n)).
Proof.
  intros Hstart Hdyn.
  apply template_layout_aux in Hstart.
  assert (Hhas : forall n,
             Headers.has (Headers.copy (Headers.set_entry "content-type" "text/html"
                                          (Headers.copy (srv_headers_defaults srv)))) n =
             Headers.has (srv_headers_defaults srv) n).
  { intros n. rewrite has_copy, has_set_entry, has_copy, Hstart.
    unfold Headers.has. cbn [existsb fst].
    rewrite (String.eqb_sym "content-type"). now destruct (Headers.lower n =? "content-type"). }
  eexists. split; [| split; [| split; [| split]]].
  - apply (serve_nothing None opts srv w req (Headers.copy (srv_headers_defaults srv))
             VUndefined c Hdyn); reflexivity.
  - reflexivity.
  - cbn [headers]. apply values_copy_after_set.
  - cbn [headers]. exact Hhas.
  - cbn [headers]. intros n. rewrite Hhas, Hstart.
    unfold Headers.has. cbn [existsb fst].
    rewrite (String.eqb_sym "content-type"), existsb_app.
    rewrite <- orb_assoc. f_equal. f_equal.
    + apply existsb_configured.
    + now destruct (truthy_key (opt_cors opts)).
Qed.

Lemma error_response_headers_witness :
  exists r,
    serve None Sample.rich_opts
          (mkServer (Some 8080%Z) "/srv/www"
             [("content-type", "text/html"); ("set-cookie", "a=1"); ("set-cookie", "b=2");
              ("content-type", "text/plain");
              ("access-control-allow-origin", "*");
              ("access-control-allow-headers",
               "Origin, X-Requested-With, Content-Type, Accept, Range")])
          Sample.world_nothing (Sample.get "/api" "") [] =
      (Fulfilled (VResponse r),
       ([] ++ [Debug (log_line (now Sample.world_nothing) (Sample.get "/api" "") 404)])%list) /\
    status r = 404%Z /\
    Headers.values (headers r) "content-type" = ["text/html"] /\
    (forall n, Headers.has (headers r) n =
               Headers.has
                 (srv_headers_defaults
                    (mkServer (Some 8080%Z) "/srv/www"
                       [("content-type", "text/html"); ("set-cookie", "a=1");
                        ("set-cookie", "b=2"); ("content-type", "text/plain");
                        ("access-control-allow-origin", "*");
                        ("access-control-allow-headers",
                         "Origin, X-Requested-With, Content-Type, Accept, Range")])) n) /\
    (forall n, Headers.has (headers r) n =
               (Headers.lower n =? "content-type") ||
               existsb (fun s => Headers.lower (configured_name s) =? Headers.lower n)
                       (headers_or_empty Sample.rich_opts) ||
               (truthy_key (opt_cors Sample.rich_opts) && Headers.has cors_entries n)).
Proof.
  apply (error_response_headers Sample.rich_opts Sample.env [] [Log "/srv/www"]).
  - reflexivity.
  - right. left. reflexivity.
Defined.
